(** * Feedback service: sentiment classification, querying and summarization

    A shallow embedding of the core of the feedback backend
    ([app/services/ai_service.py], [app/services/feedback_service.py],
    [app/api/routes.py]) together with the properties its specification
    states about it.

    Conventions of the embedding:
    - a Python [str] is a [string]; its characters are the 256 code points
      of Latin-1, which is what Rocq's [ascii] holds;
    - a Python [int] is a [Z]; lengths and counts are [nat];
    - a [dict] keyed by strings is a [gmap string _];
    - a function that can raise or that touches the database or the
      generative model is a computation in the monad [M]: it takes the
      current [World] and gives back an outcome ([Ok] or [Raise]) and the
      world it leaves behind;
    - log messages are not modelled. *)

From Stdlib Require Import ZArith Ascii String List Bool Lia DecimalString.
From Stdlib Require Import Sorting.Sorted Sorting.Permutation.
From stdpp Require Import base option list gmap strings fin_maps.

Import ListNotations.
Local Open Scope list_scope.

(** ** Python strings *)

Module PyStr.

Definition nl : string := String (ascii_of_nat 10) EmptyString.

(** [str.isspace] on one character, for the Latin-1 range: the ASCII
    controls TAB..CR and FS..US, the space, NEL and the no-break space. *)
Definition isspace (c : ascii) : bool :=
  let n := N_of_ascii c in
  ((9 <=? n) && (n <=? 13) || (28 <=? n) && (n <=? 31) ||
   (n =? 32) || (n =? 133) || (n =? 160))%N.

(** [str.lower] on one character, for the Latin-1 range: A..Z and the
    accented capitals (all of 0xC0..0xDE but the multiplication sign). *)
Definition lower_char (c : ascii) : ascii :=
  let n := N_of_ascii c in
  if ((65 <=? n) && (n <=? 90) ||
      (192 <=? n) && (n <=? 222) && negb (n =? 215))%N
  then ascii_of_N (n + 32) else c.

Fixpoint lower (s : string) : string :=
  match s with
  | EmptyString => EmptyString
  | String c s' => String (lower_char c) (lower s')
  end.

(** Truthiness of a string: [if s:] holds exactly for the non-empty ones. *)
Definition truthy (s : string) : bool :=
  match s with EmptyString => false | String _ _ => true end.

Fixpoint lstrip (s : string) : string :=
  match s with
  | EmptyString => EmptyString
  | String c s' => if isspace c then lstrip s' else s
  end.

Fixpoint rstrip (s : string) : string :=
  match s with
  | EmptyString => EmptyString
  | String c s' =>
      let r := rstrip s' in
      if isspace c && negb (truthy r) then EmptyString else String c r
  end.

(** [s.strip()] *)
Definition strip (s : string) : string := rstrip (lstrip s).

(** [s.split()]: the maximal runs of non-whitespace characters, in order.
    [cur] is the run being read, when there is one. *)
Fixpoint split_from (cur : option string) (s : string) : list string :=
  match s with
  | EmptyString => match cur with Some t => [t] | None => [] end
  | String c s' =>
      if isspace c then
        match cur with
        | Some t => t :: split_from None s'
        | None => split_from None s'
        end
      else
        split_from (Some (match cur with
                          | Some t => t +:+ String c EmptyString
                          | None => String c EmptyString
                          end)) s'
  end.

Definition split (s : string) : list string := split_from None s.

(** [s.startswith(p)] *)
Fixpoint startswith (p s : string) : bool :=
  match p, s with
  | EmptyString, _ => true
  | String _ _, EmptyString => false
  | String a p', String b s' => Ascii.eqb a b && startswith p' s'
  end.

(** [k in s] for two strings: [k] occurs in [s] as a contiguous block. *)
Fixpoint contains (k s : string) : bool :=
  startswith k s ||
  match s with
  | EmptyString => false
  | String _ s' => contains k s'
  end.

(** [s[:n]] *)
Definition slice_to (n : nat) (s : string) : string := substring 0 n s.

(** [s.replace(c, r)] for a one-character [c]. *)
Fixpoint replace_char (c : ascii) (r : string) (s : string) : string :=
  match s with
  | EmptyString => EmptyString
  | String a s' =>
      if Ascii.eqb a c then r +:+ replace_char c r s'
      else String a (replace_char c r s')
  end.

(** [sep.join(l)] *)
Fixpoint join (sep : string) (l : list string) : string :=
  match l with
  | [] => EmptyString
  | [x] => x
  | x :: l' => x +:+ sep +:+ join sep l'
  end.

(** [str(n)] for a non-negative [int]. *)
Definition str_nat (n : nat) : string :=
  NilEmpty.string_of_uint (Nat.to_uint n).

(** [x in l] for a list of strings. *)
Definition mem (x : string) (l : list string) : bool :=
  existsb (String.eqb x) l.

End PyStr.
Import PyStr.

(** ** SQL pattern matching *)

Module Sql.

(** [s LIKE p] with PostgreSQL's defaults: [%] stands for any run of
    characters, [_] for any one character, and a backslash makes the
    character after it stand for itself.  A pattern that ends in a lone
    backslash is an error there; it matches nothing here. *)
Fixpoint like (p s : string) : bool :=
  match p with
  | EmptyString => negb (truthy s)
  | String "%" p' =>
      (fix any_suffix (s : string) : bool :=
         like p' s ||
         match s with
         | EmptyString => false
         | String _ s' => any_suffix s'
         end) s
  | String "_" p' =>
      match s with
      | EmptyString => false
      | String _ s' => like p' s'
      end
  | String "\" EmptyString => false
  | String "\" (String c p') =>
      match s with
      | EmptyString => false
      | String a s' => Ascii.eqb a c && like p' s'
      end
  | String c p' =>
      match s with
      | EmptyString => false
      | String a s' => Ascii.eqb a c && like p' s'
      end
  end.

(** [s ILIKE p]: [LIKE] with the case of both sides folded. *)
Definition ilike (s p : string) : bool := like (lower p) (lower s).

(** The characters that do not stand for themselves in a pattern. *)
Definition is_meta (c : ascii) : bool :=
  Ascii.eqb c "%" || Ascii.eqb c "_" || Ascii.eqb c "\".

Fixpoint has_meta (s : string) : bool :=
  match s with
  | EmptyString => false
  | String c s' => is_meta c || has_meta s'
  end.

End Sql.

(** ** Data model *)

(** One row of the [feedback] table ([app/models.py]).  [created_at] is a
    number of microseconds since the epoch; [extra_data] is an opaque JSON
    payload, kept as its text. *)
Record Feedback : Type := mkFeedback {
  id : Z;
  text : string;
  source : string;
  sentiment : option string;
  created_at : Z;
  extra_data : option string
}.

(** Exceptions of [app/core/exceptions.py], the ones of Python and FastAPI
    the code raises or catches, and [ExternalError] for whatever a
    collaborator (the generative model's client, the database driver)
    raises. *)
Inductive exn : Type :=
| ExternalError (msg : string)
| IndexError (msg : string)
| ValueError (msg : string)
| HTTPException (status_code : Z) (detail : string)
| RequestValidationError (msg : string)
| FeedbackNotFoundError (msg : string)
| AIServiceError (msg : string) (cause : exn)
| DatabaseError (msg : string) (cause : exn).

(** [str(e)] *)
Definition str_exn (e : exn) : string :=
  match e with
  | ExternalError m | IndexError m | ValueError m | RequestValidationError m
  | FeedbackNotFoundError m | AIServiceError m _ | DatabaseError m _ => m
  | HTTPException c d => d
  end.

(** The error kinds of the specification and the exceptions that stand
    for them. *)
Inductive ErrorKind : Type :=
| InvalidArgument | NotFound | AIServiceUnavailable | PersistenceError
| InternalError.

Definition kind_of (e : exn) : ErrorKind :=
  match e with
  | ValueError _ => InvalidArgument
  | HTTPException 400 _ => InvalidArgument
  | HTTPException 404 _ => NotFound
  | RequestValidationError _ => InvalidArgument
  | FeedbackNotFoundError _ => NotFound
  | AIServiceError _ _ => AIServiceUnavailable
  | DatabaseError _ _ => PersistenceError
  | _ => InternalError
  end.

(** ** The world and the monad of effects *)

(** What a request can observe and change: the rows of the table in the
    order they were inserted, the next identifier of the sequence, the
    clock, the prompts sent so far to the generative model (oldest first)
    and, when the database is about to refuse a write, the error it will
    raise.  Reads of the table do not fail in this model. *)
Record World : Type := mkWorld {
  db : list Feedback;
  next_id : Z;
  clock : Z;
  ai_log : list string;
  db_fault : option exn
}.

Inductive result (A : Type) : Type :=
| Ok (a : A)
| Raise (e : exn).
Arguments Ok {A} a.
Arguments Raise {A} e.

Definition M (A : Type) : Type := World -> result A * World.

Definition ret {A} (a : A) : M A := fun w => (Ok a, w).
Definition raise {A} (e : exn) : M A := fun w => (Raise e, w).
Definition bind {A B} (m : M A) (k : A -> M B) : M B :=
  fun w => match m w with
           | (Ok a, w') => k a w'
           | (Raise e, w') => (Raise e, w')
           end.
(** [try: m except Exception as e: h e] *)
Definition try_except {A} (m : M A) (h : exn -> M A) : M A :=
  fun w => match m w with
           | (Ok a, w') => (Ok a, w')
           | (Raise e, w') => h e w'
           end.

Declare Scope py_scope.
Delimit Scope py_scope with py.
Notation "'do' x <- m ;; k" := (bind m (fun x => k))
  (at level 10, x name, m at level 99, k at level 200) : py_scope.
Notation "'do' ' p <- m ;; k" := (bind m (fun x => let 'p := x in k))
  (at level 10, p pattern, m at level 99, k at level 200) : py_scope.
Local Open Scope py_scope.

(** [l[0]] *)
Definition index0 {A} (l : list A) : M A :=
  match l with
  | x :: _ => ret x
  | [] => raise (IndexError "list index out of range")
  end.

(** ** Constants of [app/core/constants.py] *)

(** Modelled from the spec: [VALID_SENTIMENTS] of [app/core/constants.py],
    which is not among the sources; the specification gives the set of
    sentiment labels as positive, negative, neutral. *)
Definition VALID_SENTIMENTS : list string := ["positive"; "negative"; "neutral"].

(** ** [app/services/ai_service.py] *)

Section Services.

(** The generative model: given the prompts it has been sent before and
    the prompt of this call, the text of its response, or the exception
    raised by the call or by reading the response. *)
Variable generate_content : list string -> string -> result string.

(** The other constants of [app/core/constants.py]. *)
Variable MAX_FEEDBACK_FOR_SUMMARY : nat.
Variable VALID_SOURCES : list string.

(** [self.model.generate_content(prompt)] followed by [response.text] *)
Definition model_text (prompt : string) : M string :=
  fun w =>
    (generate_content (ai_log w) prompt,
     {| db := db w; next_id := next_id w; clock := clock w;
        ai_log := ai_log w ++ [prompt]; db_fault := db_fault w |}).

Definition negative_keywords : list string :=
  ["bad"; "terrible"; "awful"; "hate"; "disappointed"; "frustrated";
   "broken"; "bug"; "error"; "crash"; "slow"; "worst"].
Definition positive_keywords : list string :=
  ["love"; "great"; "excellent"; "amazing"; "perfect"; "wonderful";
   "fantastic"; "best"; "happy"; "satisfied"; "good"].

(** [sum(1 for keyword in keywords if keyword in text_lower)] *)
Definition keyword_count (keywords : list string) (text_lower : string) : nat :=
  list_sum (map (fun _ => 1)
              (List.filter (fun keyword => contains keyword text_lower) keywords)).

Definition _fallback_sentiment (text : string) : string :=
  let text_lower := lower text in
  let negative_count := keyword_count negative_keywords text_lower in
  let positive_count := keyword_count positive_keywords text_lower in
  if positive_count <? negative_count then "negative"
  else if negative_count <? positive_count then "positive"
  else "neutral".

Definition sentiment_prompt (text_snippet : string) : string :=
  "Analyze the sentiment of the following customer feedback. " +:+ nl +:+
  "            Respond with ONLY one word: 'positive', 'negative', or 'neutral'." +:+ nl +:+
  "            " +:+ nl +:+
  "            Feedback: " +:+ text_snippet +:+ nl +:+
  "            " +:+ nl +:+
  "            Sentiment:".

Definition analyze_sentiment (text : string) : M string :=
  if negb (truthy text) || negb (truthy (strip text)) then
    ret "neutral"
  else
    try_except
      (let text_snippet :=
         if 1000 <? String.length text then slice_to 1000 text else text in
       let prompt := sentiment_prompt text_snippet in
       do response <- model_text prompt ;;
       do sentiment <- index0 (split (lower (strip response))) ;;
       if mem sentiment VALID_SENTIMENTS then ret sentiment
       else ret (_fallback_sentiment text))
      (fun e => ret (_fallback_sentiment text)).

(** Truthiness of a dict, and [d.get(k)] read as a condition and then as
    a value: the entry when there is one and it is a non-empty string. *)
Definition dict_truthy {V} (d : gmap string V) : bool :=
  negb (bool_decide (d = ∅)).
Definition get_truthy (d : gmap string string) (k : string) : option string :=
  match d !! k with
  | Some v => if truthy v then Some v else None
  | None => None
  end.

Definition feedback_block (texts_to_summarize : list string) : string :=
  join (nl +:+ nl +:+ "---" +:+ nl +:+ nl)
    (imap (fun i text => "Feedback " +:+ str_nat (i + 1) +:+ ":" +:+ nl +:+ text)
       texts_to_summarize).

Definition context_str (context : gmap string string) : string :=
  let context_str := "" in
  if dict_truthy context then
    let context_str :=
      match get_truthy context "date_range" with
      | Some v => context_str +:+ "Date range: " +:+ v +:+ nl
      | None => context_str
      end in
    match get_truthy context "source" with
    | Some v => context_str +:+ "Source filter: " +:+ v +:+ nl
    | None => context_str
    end
  else context_str.

Definition summary_prompt (context : gmap string string)
    (texts_to_summarize : list string) : string :=
  "You are analyzing customer feedback for a product team. " +:+ nl +:+
  "            Summarize the key themes, complaints, and positive feedback from the following customer feedback entries." +:+ nl +:+
  "            Be concise but comprehensive. Focus on actionable insights." +:+ nl +:+
  "            " +:+ context_str context +:+ nl +:+
  "            " +:+ nl +:+
  "            Feedback entries:" +:+ nl +:+
  "            " +:+ feedback_block texts_to_summarize +:+ nl +:+
  "            " +:+ nl +:+
  "            Summary:".

Definition no_feedback_message : string := "No feedback available to summarize.".

Definition summarize_feedback (feedback_texts : list string)
    (context : gmap string string) : M string :=
  match feedback_texts with
  | [] => ret no_feedback_message
  | _ :: _ =>
      try_except
        (let texts_to_summarize := take MAX_FEEDBACK_FOR_SUMMARY feedback_texts in
         let prompt := summary_prompt context texts_to_summarize in
         do response <- model_text prompt ;;
         let summary := strip response in
         ret summary)
        (fun e =>
           raise (AIServiceError ("Failed to generate summary: " +:+ str_exn e) e))
  end.

(** ** [app/services/feedback_service.py] *)

(** [query.order_by(Feedback.created_at.desc())]: most recent first; rows
    of equal date keep the order of the table.  The database promises the
    order of the dates and no more: a property that depends on the order
    among rows of one date is stated for tables without such rows. *)
Fixpoint insert_desc (r : Feedback) (l : list Feedback) : list Feedback :=
  match l with
  | [] => [r]
  | x :: l' =>
      if (created_at x <=? created_at r)%Z then r :: l
      else x :: insert_desc r l'
  end.
Definition order_by_created_at_desc (rows : list Feedback) : list Feedback :=
  foldr insert_desc [] rows.

(** An optional filter read as a condition ([if search:]): it applies when
    it is given and is not the empty string. *)
Definition given (o : option string) : option string :=
  match o with
  | Some v => if truthy v then Some v else None
  | None => None
  end.

(** The rows that the filters of [get_feedback] keep. *)
Definition apply_filters (search source_ sentiment_ : option string)
    (start_date end_date : option Z) (query : list Feedback) : list Feedback :=
  let query :=
    match given search with
    | Some v => List.filter (fun r => Sql.ilike (text r) ("%" +:+ v +:+ "%")) query
    | None => query
    end in
  let query :=
    match given source_ with
    | Some v => List.filter (fun r => String.eqb (source r) v) query
    | None => query
    end in
  let query :=
    match given sentiment_ with
    | Some v =>
        List.filter (fun r => match sentiment r with
                              | Some x => String.eqb x v
                              | None => false
                              end) query
    | None => query
    end in
  let query :=
    match start_date with
    | Some d => List.filter (fun r => (d <=? created_at r)%Z) query
    | None => query
    end in
  match end_date with
  | Some d => List.filter (fun r => (created_at r <=? d)%Z) query
  | None => query
  end.

(** [OFFSET] and [LIMIT] of a negative number are errors of the database.
    So is, in PostgreSQL, one above [bigint_max], which is not modelled:
    a property of a call whose offset and limit are not fixed small is
    stated for values up to that bound. *)
Definition get_feedback (skip limit : Z) (search source_ sentiment_ : option string)
    (start_date end_date : option Z) : M (list Feedback * nat) :=
  fun w =>
    let query := apply_filters search source_ sentiment_ start_date end_date (db w) in
    let total := length query in
    if (skip <? 0)%Z || (limit <? 0)%Z then
      (Raise (ExternalError "OFFSET and LIMIT must not be negative"), w)
    else
      let feedback :=
        take (Z.to_nat limit) (drop (Z.to_nat skip) (order_by_created_at_desc query)) in
      (Ok (feedback, total), w).

(** The rows come in the order of the table; the query asks for no
    order, so the properties stated of the result do not depend on it.
    Reads do not fail in this model, so the handler that turns a failure
    of the query into a [DatabaseError] is never entered. *)
Definition get_feedback_by_ids (feedback_ids : list Z) : M (list Feedback) :=
  match feedback_ids with
  | [] => ret []
  | _ :: _ =>
      fun w =>
        (Ok (List.filter (fun r => existsb (Z.eqb (id r)) feedback_ids) (db w)), w)
  end.

(** [db.add(feedback); db.commit(); db.refresh(feedback)]: the row gets
    the next identifier and the current time, unless the write fails. *)
Definition add_commit_refresh (text_ source_ : string) (sentiment_ : option string)
    (extra : option string) : M Feedback :=
  fun w =>
    match db_fault w with
    | Some e => (Raise e, w)
    | None =>
        let row := {| id := next_id w; text := text_; source := source_;
                      sentiment := sentiment_; created_at := clock w;
                      extra_data := extra |} in
        (Ok row,
         {| db := db w ++ [row]; next_id := (next_id w + 1)%Z; clock := clock w;
            ai_log := ai_log w; db_fault := db_fault w |})
    end.

(** [db.rollback()]: a write that failed has left nothing behind. *)
Definition rollback : M unit := ret tt.

(** The printed form of [VALID_SOURCES], which the error message quotes. *)
Variable VALID_SOURCES_repr : string.

Definition create_feedback (text_ source_ : string) (metadata : option string)
    : M Feedback :=
  if negb (mem source_ VALID_SOURCES) then
    raise (ValueError ("Invalid source: " +:+ source_ +:+ ". Must be one of "
                       +:+ VALID_SOURCES_repr))
  else if negb (truthy text_) || negb (truthy (strip text_)) then
    raise (ValueError "Feedback text cannot be empty")
  else
    try_except
      (do sentiment_ <- analyze_sentiment text_ ;;
       let sentiment_ :=
         if mem sentiment_ VALID_SENTIMENTS then sentiment_ else "neutral" in
       do feedback <- add_commit_refresh (strip text_) source_ (Some sentiment_) metadata ;;
       ret feedback)
      (fun e =>
         do _ <- rollback ;;
         raise (DatabaseError ("Failed to create feedback: " +:+ str_exn e) e)).

(** [db.query(col, func.count(Feedback.id)).group_by(col).all()]: one
    pair for each value the column takes, with the number of rows that
    have it. *)
Definition group_count {K} `{EqDecision K} (col : Feedback -> K)
    (rows : list Feedback) : list (K * nat) :=
  map (fun k => (k, length (List.filter (fun r => bool_decide (col r = k)) rows)))
    (remove_dups (map col rows)).

(** [{f(k): v for k, v in pairs}]: entries are written in order, a later
    one replacing an earlier one of the same key. *)
Definition dict_of {K} (f : K -> string) (pairs : list (K * nat)) : gmap string nat :=
  foldl (fun d kv => <[f kv.1 := kv.2]> d) ∅ pairs.

(** [sent or 'unknown'] *)
Definition or_unknown (sent : option string) : string :=
  match given sent with
  | Some v => v
  | None => "unknown"
  end.

Record Stats : Type := mkStats {
  total_feedback : nat;
  sentiment_counts : gmap string nat;
  source_counts : gmap string nat;
  recent_count : nat
}.

Definition seven_days : Z := 7 * 86400 * 1000000.

Definition get_stats : M Stats :=
  fun w =>
    let total := length (db w) in
    let sentiment_counts := group_count sentiment (db w) in
    let sentiment_dict := dict_of or_unknown sentiment_counts in
    let source_counts := group_count source (db w) in
    let source_dict := dict_of (fun s => s) source_counts in
    let week_ago := (clock w - seven_days)%Z in
    let recent_count :=
      length (List.filter (fun r => (week_ago <=? created_at r)%Z) (db w)) in
    (Ok {| total_feedback := total; sentiment_counts := sentiment_dict;
           source_counts := source_dict; recent_count := recent_count |}, w).

(** [feedback.sentiment = ...; db.commit()] on the row of a given id. *)
Definition commit_sentiment (feedback_id : Z) (sentiment_ : string) : M unit :=
  fun w =>
    match db_fault w with
    | Some e => (Raise e, w)
    | None =>
        (Ok tt,
         {| db := map (fun r => if (id r =? feedback_id)%Z
                                then {| id := id r; text := text r; source := source r;
                                        sentiment := Some sentiment_;
                                        created_at := created_at r;
                                        extra_data := extra_data r |}
                                else r) (db w);
            next_id := next_id w; clock := clock w;
            ai_log := ai_log w; db_fault := db_fault w |})
    end.

Definition analyze_sentiment_for_feedback (feedback_id : Z) : M (option Feedback) :=
  fun w =>
    match List.find (fun r => (id r =? feedback_id)%Z) (db w) with
    | Some feedback =>
        (do sentiment_ <- analyze_sentiment (text feedback) ;;
         do _ <- commit_sentiment (id feedback) sentiment_ ;;
         ret (Some {| id := id feedback; text := text feedback;
                      source := source feedback; sentiment := Some sentiment_;
                      created_at := created_at feedback;
                      extra_data := extra_data feedback |})) w
    | None => (Ok None, w)
    end.

(** ** [app/api/routes.py] *)

Variables DEFAULT_PAGE DEFAULT_PAGE_SIZE MAX_PAGE_SIZE : Z.

(** [datetime.fromisoformat]: the instant a text denotes, when it is a
    date in ISO format. *)
Variable fromisoformat : string -> option Z.

(** A query parameter declared [Query(default, ge=lo, le=hi)]: the default
    when it is absent, else the value given, refused when out of bounds. *)
Definition query_int (default_ : Z) (ge le : option Z) (given_ : option Z) : M Z :=
  match given_ with
  | None => ret default_
  | Some v =>
      if match ge with Some lo => (v <? lo)%Z | None => false end
         || match le with Some hi => (hi <? v)%Z | None => false end
      then raise (RequestValidationError "value out of range")
      else ret v
  end.

(** [datetime.fromisoformat(s.replace('Z', '+00:00'))] under
    [try: ... except ValueError: raise HTTPException(400, detail)],
    for a value that is given and not empty. *)
Definition parse_date (value : option string) (detail : string) : M (option Z) :=
  match given value with
  | Some v =>
      match fromisoformat (replace_char "Z" "+00:00" v) with
      | Some dt => ret (Some dt)
      | None => raise (HTTPException 400 detail)
      end
  | None => ret None
  end.

Record FeedbackListResponse : Type := mkFeedbackListResponse {
  items : list Feedback;
  total : nat;
  page : Z;
  page_size : Z
}.

Definition get_feedback_route (page_ page_size_ : option Z)
    (search source_ sentiment_ start_date end_date : option string)
    : M FeedbackListResponse :=
  do page_ <- query_int DEFAULT_PAGE (Some 1%Z) None page_ ;;
  do page_size_ <- query_int DEFAULT_PAGE_SIZE (Some 1%Z) (Some MAX_PAGE_SIZE) page_size_ ;;
  let skip := ((page_ - 1) * page_size_)%Z in
  do start_dt <- parse_date start_date
    "Invalid start_date format. Use ISO format (e.g., 2024-01-01T00:00:00Z)." ;;
  do end_dt <- parse_date end_date
    "Invalid end_date format. Use ISO format (e.g., 2024-01-01T00:00:00Z)." ;;
  try_except
    (do ' (feedback, total_) <-
         get_feedback skip page_size_ search source_ sentiment_ start_dt end_dt ;;
     ret {| items := feedback; total := total_;
            page := page_; page_size := page_size_ |})
    (fun e => raise (HTTPException 500 "Failed to fetch feedback")).

Definition get_stats_route : M Stats :=
  try_except get_stats
    (fun e => raise (HTTPException 500 "Failed to fetch statistics")).

Definition create_feedback_route (text_ source_ : string) (metadata : option string)
    : M Feedback :=
  try_except (create_feedback text_ source_ metadata)
    (fun e =>
       match e with
       | AIServiceError _ _ => raise e
       | _ => raise (HTTPException 500 "Failed to create feedback")
       end).

(** The body of a summarization request.  The values of [filters] are
    JSON strings; other kinds of JSON values are outside the model. *)
Record SummarizeRequest : Type := mkSummarizeRequest {
  feedback_ids : option (list Z);
  filters : option (gmap string string)
}.

Record SummarizeResponse : Type := mkSummarizeResponse {
  summary : string;
  feedback_count : nat;
  sentiment_breakdown : gmap string nat
}.

(** The loop that fills [sentiment_breakdown]. *)
Definition count_sentiments (feedback_items : list Feedback) : gmap string nat :=
  foldl (fun breakdown item =>
           let sentiment_ := or_unknown (sentiment item) in
           <[sentiment_ := default 0 (breakdown !! sentiment_) + 1]> breakdown)
    ∅ feedback_items.

(** The first part of [summarize_feedback]: the feedback items to
    summarize, from the identifiers, the filters or the recent feedback. *)
Definition resolve_feedback (request : SummarizeRequest) : M (list Feedback) :=
  do feedback_items <-
    match feedback_ids request with
    | Some ((_ :: _) as ids) =>
        do feedback_items <- get_feedback_by_ids ids ;;
        match feedback_items with
        | [] => raise (HTTPException 404 "No feedback found with the provided IDs")
        | _ :: _ => ret feedback_items
        end
    | _ =>
        match filters request with
        | Some filters_ =>
            if dict_truthy filters_ then
              do start_dt <- parse_date (filters_ !! "start_date")
                "Invalid start_date format in filters" ;;
              do end_dt <- parse_date (filters_ !! "end_date")
                "Invalid end_date format in filters" ;;
              do ' (feedback_items, _) <-
                get_feedback 0 (Z.of_nat MAX_FEEDBACK_FOR_SUMMARY)
                  (filters_ !! "search") (filters_ !! "source")
                  (filters_ !! "sentiment") start_dt end_dt ;;
              ret feedback_items
            else
              do ' (feedback_items, _) <-
                get_feedback 0 (Z.of_nat MAX_FEEDBACK_FOR_SUMMARY)
                  None None None None None ;;
              ret feedback_items
        | None =>
            do ' (feedback_items, _) <-
              get_feedback 0 (Z.of_nat MAX_FEEDBACK_FOR_SUMMARY)
                None None None None None ;;
            ret feedback_items
        end
    end ;;
  match feedback_items with
  | [] => raise (HTTPException 400 "No feedback found to summarize")
  | _ :: _ => ret feedback_items
  end.

Definition summarize_feedback_route (request : SummarizeRequest)
    : M SummarizeResponse :=
  try_except
    (do feedback_items <- resolve_feedback request ;;
     let feedback_texts := map text feedback_items in
     let context := default ∅ (filters request) in
     do summary_ <- summarize_feedback feedback_texts context ;;
     let sentiment_breakdown_ := count_sentiments feedback_items in
     ret {| summary := summary_;
            feedback_count := length feedback_items;
            sentiment_breakdown := sentiment_breakdown_ |})
    (fun e =>
       match e with
       | HTTPException _ _ => raise e
       | AIServiceError _ _ => raise e
       | _ => raise (HTTPException 500 "Failed to generate summary")
       end).

(** [str(n)] for an [int]. *)
Definition str_int (n : Z) : string := NilEmpty.string_of_int (Z.to_int n).

(** [db.query(Feedback).filter(Feedback.id == feedback_id).first()], and
    the error of the route when there is no such row. *)
Definition get_feedback_by_id (feedback_id : Z) : M Feedback :=
  fun w =>
    match List.find (fun r => (id r =? feedback_id)%Z) (db w) with
    | Some feedback => (Ok feedback, w)
    | None =>
        (Raise (FeedbackNotFoundError
                  ("Feedback with ID " +:+ str_int feedback_id +:+ " not found")), w)
    end.

End Services.

(** * Vocabulary of the properties *)

(** The definitions below do not model code; they name what the
    properties speak about: predicates on texts and tables, the worlds
    a call leaves behind, and small tables and models to run the
    functions on. *)

(** Every character of [s] is whitespace (so [s] may be empty). *)
Fixpoint all_space (s : string) : bool :=
  match s with
  | EmptyString => true
  | String c s' => isspace c && all_space s'
  end.

(** The prompt that [analyze_sentiment] sends for a text. *)
Definition classifier_prompt (text : string) : string :=
  sentiment_prompt
    (if 1000 <? String.length text then slice_to 1000 text else text).

(** The world after one more prompt has gone to the model. *)
Definition sent (prompt : string) (w : World) : World :=
  {| db := db w; next_id := next_id w; clock := clock w;
     ai_log := ai_log w ++ [prompt]; db_fault := db_fault w |}.

(** The label read from a response: its first word, case folded, when
    that is a valid label. *)
Definition parsed_label (response : string) : option string :=
  match split (lower (strip response)) with
  | sentiment_ :: _ =>
      if mem sentiment_ VALID_SENTIMENTS then Some sentiment_ else None
  | [] => None
  end.

(** The keywords of a list that occur in the lower-cased text. *)
Definition keywords_found (keywords : list string) (text : string) : list string :=
  List.filter (fun keyword => contains keyword (lower text)) keywords.

(** The text of the specification's example of the fallback. *)
Definition example_text : string :=
  "This is terrible, broken, and the worst experience, bad bad bad".

(** A world to run examples in: an empty table and a model that has not
    been called, and two models, one that is down and one that answers
    the same text to every prompt. *)
Definition world0 : World :=
  {| db := []; next_id := 1; clock := 0; ai_log := []; db_fault := None |}.

Definition unavailable : list string -> string -> result string :=
  fun _ _ => Raise (ExternalError "503 model unavailable").

Definition answering (response : string) : list string -> string -> result string :=
  fun _ _ => Ok response.

(** The instant an optional date text denotes: [Some None] when it is
    absent or empty, [None] when it is not a date. *)
Definition date_of (fromisoformat : string -> option Z) (value : option string)
    : option (option Z) :=
  match given value with
  | Some v =>
      match fromisoformat (replace_char "Z" "+00:00" v) with
      | Some dt => Some (Some dt)
      | None => None
      end
  | None => Some None
  end.

(** [if not feedback_items: raise e], as an outcome. *)
Definition nonempty_or (e : exn) (feedback_items : list Feedback)
    : result (list Feedback) :=
  match feedback_items with
  | [] => Raise e
  | _ :: _ => Ok feedback_items
  end.

(** The rows whose identifier is among [ids], in the order of the table. *)
Definition rows_with_ids (ids : list Z) (rows : list Feedback) : list Feedback :=
  List.filter (fun r => existsb (Z.eqb (id r)) ids) rows.

(** The most recent rows that pass the filters, up to the cap. *)
Definition recent_matching (MAX_FEEDBACK_FOR_SUMMARY : nat)
    (search source_ sentiment_ : option string)
    (start_date end_date : option Z) (rows : list Feedback) : list Feedback :=
  take MAX_FEEDBACK_FOR_SUMMARY
    (order_by_created_at_desc
       (apply_filters search source_ sentiment_ start_date end_date rows)).

(** The two errors of the resolution. *)
Definition no_ids_found : exn :=
  HTTPException 404 "No feedback found with the provided IDs".

Definition nothing_to_summarize : exn :=
  HTTPException 400 "No feedback found to summarize".

(** The sum of the values of a dictionary of counts. *)
Definition dict_sum (d : gmap string nat) : nat :=
  map_fold (fun _ v acc => v + acc) 0 d.

(** The number of items that the breakdown files under a label: those
    whose sentiment is that label, and under "unknown" those without a
    sentiment. *)
Definition count_label (label : string) (feedback_items : list Feedback) : nat :=
  length (List.filter (fun r => String.eqb (or_unknown (sentiment r)) label)
            feedback_items).

(** A table of three rows, the last one without a sentiment, and a date
    parser that knows one date. *)
Definition world1 : World :=
  {| db := [ {| id := 1; text := "App crashes on upload"; source := "app_store";
                sentiment := Some "negative"; created_at := 100; extra_data := None |};
             {| id := 2; text := "Love the dark mode"; source := "survey";
                sentiment := Some "positive"; created_at := 200; extra_data := None |};
             {| id := 3; text := "Imported from the old system"; source := "survey";
                sentiment := None; created_at := 300; extra_data := None |} ];
     next_id := 4; clock := 1000; ai_log := []; db_fault := None |}.

Definition iso0 : string -> option Z :=
  fun s => if String.eqb s "2024-01-01T00:00:00+00:00" then Some 150%Z else None.

(** The row that [create_feedback] writes. *)
Definition new_row (text_ source_ label : string) (metadata : option string)
    (w : World) : Feedback :=
  {| id := next_id w; text := strip text_; source := source_;
     sentiment := Some label; created_at := clock w; extra_data := metadata |}.

(** The world after a row has been written. *)
Definition inserted (row : Feedback) (w : World) : World :=
  {| db := db w ++ [row]; next_id := (next_id w + 1)%Z; clock := clock w;
     ai_log := ai_log w; db_fault := db_fault w |}.

(** The sources the specification names, and their printed form. *)
Definition valid_sources : list string := ["support_ticket"; "survey"; "app_store"].

Definition valid_sources_repr : string := "['support_ticket', 'survey', 'app_store']".

(** The invariant of the data model on sentiments: the sentiment of a
    row is absent or is one of the valid labels. *)
Definition sentiment_ok (r : Feedback) : Prop :=
  match sentiment r with
  | None => True
  | Some s => In s VALID_SENTIMENTS
  end.

Definition store_ok (rows : list Feedback) : Prop :=
  forall r, In r rows -> sentiment_ok r.

(** The number of rows whose column [col] holds [k]. *)
Definition count_of {K} `{EqDecision K} (col : Feedback -> K) (k : K)
    (rows : list Feedback) : nat :=
  length (List.filter (fun r => bool_decide (col r = k)) rows).

(** The order of the results: a row comes before the rows that are not
    more recent than it. *)
Definition newer_first (a b : Feedback) : Prop := (created_at b <= created_at a)%Z.

(** One filter of [get_feedback] on one row; a filter that is not given,
    or is the empty string, lets every row through. *)
Definition search_ok (search : option string) (r : Feedback) : bool :=
  match given search with
  | Some v => Sql.ilike (text r) ("%" +:+ v +:+ "%")
  | None => true
  end.

Definition source_ok (source_ : option string) (r : Feedback) : bool :=
  match given source_ with
  | Some v => String.eqb (source r) v
  | None => true
  end.

Definition sentiment_matches (sentiment_ : option string) (r : Feedback) : bool :=
  match given sentiment_ with
  | Some v => match sentiment r with Some x => String.eqb x v | None => false end
  | None => true
  end.

Definition start_ok (start_date : option Z) (r : Feedback) : bool :=
  match start_date with
  | Some d => (d <=? created_at r)%Z
  | None => true
  end.

Definition end_ok (end_date : option Z) (r : Feedback) : bool :=
  match end_date with
  | Some d => (created_at r <=? d)%Z
  | None => true
  end.

(** All the filters together. *)
Definition matchesb (search source_ sentiment_ : option string)
    (start_date end_date : option Z) (r : Feedback) : bool :=
  search_ok search r && source_ok source_ r && sentiment_matches sentiment_ r
  && start_ok start_date r && end_ok end_date r.

(** Two rows that mention 50, one of them with a percent sign. *)
Definition minutes_row : Feedback :=
  {| id := 1; text := "Checkout took 50 minutes"; source := "survey";
     sentiment := Some "negative"; created_at := 100; extra_data := None |}.

Definition discount_row : Feedback :=
  {| id := 2; text := "Got 50% off, great deal"; source := "survey";
     sentiment := Some "positive"; created_at := 200; extra_data := None |}.

Definition world2 : World :=
  {| db := [minutes_row; discount_row]; next_id := 3; clock := 1000;
     ai_log := []; db_fault := None |}.

(** No character of [s] is whitespace. *)
Fixpoint no_space (s : string) : bool :=
  match s with
  | EmptyString => true
  | String c s' => negb (isspace c) && no_space s'
  end.

(** [s] is empty or starts with a whitespace character: a word that ends
    where [s] starts ends there. *)
Definition word_end (s : string) : bool :=
  match s with
  | EmptyString => true
  | String c _ => isspace c
  end.

(** The entry of a text in the prompt of a summary, with its position
    counted from one. *)
Definition prompt_entry (i : nat) (text_ : string) : string :=
  "Feedback " +:+ str_nat (i + 1) +:+ ":" +:+ nl +:+ text_.

(** The identifiers of a table are all different and below the next one
    of the sequence. *)
Definition ids_ok (w : World) : Prop :=
  NoDup (map id (db w)) /\ forall r, In r (db w) -> (id r < next_id w)%Z.

(** A row as [create_feedback] writes it: a text that is not empty and has
    no whitespace at either end, and a source among the valid ones. *)
Definition row_ok (VALID_SOURCES : list string) (r : Feedback) : Prop :=
  text r <> "" /\ strip (text r) = text r /\ In (source r) VALID_SOURCES.

(** Everything of a row but its sentiment. *)
Definition without_sentiment (r : Feedback)
    : Z * string * string * Z * option string :=
  (id r, text r, source r, created_at r, extra_data r).

(** The rows of a table that count as recent at a given time. *)
Definition recent_rows (now : Z) (rows : list Feedback) : list Feedback :=
  List.filter (fun r => (now - seven_days <=? created_at r)%Z) rows.

(** The items of page [i] (counted from zero) of size [s] of a query. *)
Definition page_items (s : nat) (search source_ sentiment_ : option string)
    (start_date end_date : option Z) (w : World) (i : nat) : list Feedback :=
  match fst (get_feedback (Z.of_nat (i * s)) (Z.of_nat s)
               search source_ sentiment_ start_date end_date w) with
  | Ok (feedback, _) => feedback
  | Raise _ => []
  end.

(** A row with its sentiment replaced by a label. *)
Definition with_sentiment (r : Feedback) (label : string) : Feedback :=
  {| id := id r; text := text r; source := source r; sentiment := Some label;
     created_at := created_at r; extra_data := extra_data r |}.

(** A lower-case letter of the ASCII range, its capital, and a character
    that is a given letter in one case or the other. *)
Definition is_lower_letter (k : ascii) : bool :=
  ((97 <=? N_of_ascii k) && (N_of_ascii k <=? 122))%N.

Definition capital (k : ascii) : ascii := ascii_of_N (N_of_ascii k - 32).

Definition same_letter (c k : ascii) : bool :=
  Ascii.eqb c k || Ascii.eqb c (capital k).

Fixpoint lower_letters (kw : string) : bool :=
  match kw with
  | EmptyString => true
  | String k kw' => is_lower_letter k && lower_letters kw'
  end.

(** A keyword begins a text, and occurs in a text, when the letters of
    the text are read in either case: the text is not case folded here,
    each of its characters is compared with the letter of the keyword and
    with the capital of that letter. *)
Fixpoint begins_any_case (kw s : string) : bool :=
  match kw, s with
  | EmptyString, _ => true
  | String _ _, EmptyString => false
  | String k kw', String c s' => same_letter c k && begins_any_case kw' s'
  end.

Fixpoint occurs_any_case (kw s : string) : bool :=
  begins_any_case kw s ||
  match s with
  | EmptyString => false
  | String _ s' => occurs_any_case kw s'
  end.

(** The keywords of a list that occur in a text, each of them once
    however often it occurs. *)
Definition keywords_present (keywords : list string) (text : string) : list string :=
  List.filter (fun keyword => occurs_any_case keyword text) keywords.

(** The vote as the specification words it, by occurrences: the number of
    places of the lower-cased text at which a keyword of the list begins,
    summed over the list. *)
Fixpoint occurrences (keyword s : string) : nat :=
  (if startswith keyword s then 1 else 0) +
  match s with
  | EmptyString => 0
  | String _ s' => occurrences keyword s'
  end.

Definition occurrence_count (keywords : list string) (text_lower : string) : nat :=
  list_sum (map (fun keyword => occurrences keyword text_lower) keywords).

Definition occurrence_vote (text : string) : string :=
  let text_lower := lower text in
  let negative_count := occurrence_count negative_keywords text_lower in
  let positive_count := occurrence_count positive_keywords text_lower in
  if positive_count <? negative_count then "negative"
  else if negative_count <? positive_count then "positive"
  else "neutral".

(** A text in which a keyword is repeated. *)
Definition repeated_text : string := "bad bad bad great good".

(** The largest value that PostgreSQL takes as OFFSET or LIMIT. *)
Definition bigint_max : Z := 9223372036854775807.

(** * Properties *)

(** ** Strings *)

Section StringFacts.

Lemma all_space_lstrip s : all_space (lstrip s) = all_space s.
Proof.
  induction s as [|c s IH]; simpl; [reflexivity|].
  destruct (isspace c) eqn:Hc; simpl; [exact IH | now rewrite Hc].
Qed.

Lemma truthy_rstrip s : truthy (rstrip s) = negb (all_space s).
Proof.
  induction s as [|c s IH]; simpl; [reflexivity|].
  rewrite IH. destruct (isspace c), (all_space s); reflexivity.
Qed.

Lemma truthy_strip s : truthy (strip s) = negb (all_space s).
Proof. unfold strip. now rewrite truthy_rstrip, all_space_lstrip. Qed.

(** The test [not text or not text.strip()] holds exactly for the texts
    that are empty or all whitespace. *)
Lemma blank_test s :
  negb (truthy s) || negb (truthy (strip s)) = all_space s.
Proof.
  rewrite truthy_strip, negb_involutive.
  destruct s; simpl; [reflexivity|]. reflexivity.
Qed.

Lemma startswith_spec p s :
  startswith p s = true <-> exists b, s = p +:+ b.
Proof.
  revert s. induction p as [|a p IH]; intros s; simpl.
  - split; [intros _; now exists s | reflexivity].
  - destruct s as [|c s].
    + split; [discriminate | intros [b Hb]; discriminate].
    + rewrite andb_true_iff, Ascii.eqb_eq, IH. split.
      * intros [-> [b ->]]. now exists b.
      * intros [b Hb]. injection Hb as -> ->. split; [reflexivity | now exists b].
Qed.

(** [contains k s] is substring containment: [k] sits somewhere inside
    [s], between a prefix and a suffix; nothing is asked of the
    characters around it. *)
Lemma contains_spec k s :
  contains k s = true <-> exists a b, s = a +:+ k +:+ b.
Proof.
  induction s as [|c s IH].
  - simpl. rewrite orb_false_r, startswith_spec. split.
    + intros [b Hb]. now exists EmptyString, b.
    + intros [a [b Hab]]. destruct a; simpl in Hab; [now exists b | discriminate].
  - cbn [contains]. rewrite orb_true_iff, startswith_spec, IH. split.
    + intros [[b Hb] | [a [b Hab]]].
      * now exists EmptyString, b.
      * exists (String c a), b. simpl. now rewrite Hab.
    + intros [a [b Hab]]. destruct a as [|c' a]; simpl in Hab.
      * left. now exists b.
      * right. injection Hab as -> ->. now exists a, b.
Qed.

Lemma mem_In x l : mem x l = true <-> In x l.
Proof.
  unfold mem. rewrite existsb_exists. split.
  - intros [y [Hy Heq]]. apply String.eqb_eq in Heq. now subst.
  - intros H. exists x. split; [exact H | apply String.eqb_refl].
Qed.

Lemma string_app_assoc (a b c : string) : (a +:+ b) +:+ c = a +:+ (b +:+ c).
Proof.
  induction a as [|x a IH]; [reflexivity|].
  change ((String x a +:+ b) +:+ c) with (String x ((a +:+ b) +:+ c)).
  change (String x a +:+ b +:+ c) with (String x (a +:+ b +:+ c)).
  now rewrite IH.
Qed.

Lemma string_app_nil_r (a : string) : a +:+ "" = a.
Proof.
  induction a as [|x a IH]; [reflexivity|].
  change (String x a +:+ "") with (String x (a +:+ "")). now rewrite IH.
Qed.

End StringFacts.

(** ** The sentiment classifier *)

Section Classifier.

Variable generate_content : list string -> string -> result string.

Lemma fallback_is_label text :
  In (_fallback_sentiment text) ["positive"; "negative"; "neutral"].
Proof.
  unfold _fallback_sentiment. cbv zeta.
  destruct (_ <? _); [simpl; tauto|].
  destruct (_ <? _); simpl; tauto.
Qed.

(** What [analyze_sentiment] does, case by case. *)
Lemma analyze_sentiment_cases text w :
  analyze_sentiment generate_content text w =
    if all_space text then (Ok "neutral", w)
    else
      (Ok match generate_content (ai_log w) (classifier_prompt text) with
          | Ok response =>
              match parsed_label response with
              | Some label => label
              | None => _fallback_sentiment text
              end
          | Raise _ => _fallback_sentiment text
          end,
       sent (classifier_prompt text) w).
Proof.
  unfold analyze_sentiment. rewrite blank_test.
  destruct (all_space text); [reflexivity|].
  unfold try_except, bind, model_text, parsed_label, classifier_prompt, sent.
  cbv zeta.
  destruct (generate_content _ _) as [response|e]; [|reflexivity].
  destruct (split _) as [|tok rest]; unfold index0, raise, ret; [reflexivity|].
  destruct (mem tok VALID_SENTIMENTS); reflexivity.
Qed.

(** The classifier always returns one of the three labels. *)
Lemma analyze_sentiment_returns_label text w :
  exists label w',
    analyze_sentiment generate_content text w = (Ok label, w') /\
    In label ["positive"; "negative"; "neutral"].
Proof.
  rewrite analyze_sentiment_cases.
  destruct (all_space text) eqn:Hb.
  - exists "neutral", w. simpl. tauto.
  - eexists _, _. split; [reflexivity|].
    destruct (generate_content _ _) as [response|e];
      [|apply fallback_is_label].
    unfold parsed_label. destruct (split _) as [|tok rest];
      [apply fallback_is_label|].
    destruct (mem tok VALID_SENTIMENTS) eqn:Hm;
      [|apply fallback_is_label].
    apply mem_In in Hm. exact Hm.
Qed.

(** C1. For every text and every behaviour of the generative model
    (an exception, an empty answer, any other text), [analyze_sentiment]
    returns, it does not raise, and what it returns is one of positive,
    negative, neutral.  When the text is empty or all whitespace the
    label is neutral and the world is left as it was: no prompt has been
    sent to the model. *)
Theorem analyze_sentiment_total text w :
  exists label w',
    analyze_sentiment generate_content text w = (Ok label, w') /\
    In label ["positive"; "negative"; "neutral"] /\
    (all_space text = true -> label = "neutral" /\ w' = w).
Proof.
  destruct (analyze_sentiment_returns_label text w) as (label & w' & Hrun & Hlabel).
  exists label, w'. split; [exact Hrun|]. split; [exact Hlabel|].
  intros Hblank. rewrite analyze_sentiment_cases, Hblank in Hrun.
  injection Hrun as <- <-. split; reflexivity.
Qed.

(** [analyze_sentiment] writes to the log of prompts and to nothing
    else. *)
Lemma analyze_sentiment_frame text w :
  let w' := snd (analyze_sentiment generate_content text w) in
  db w' = db w /\ next_id w' = next_id w /\ clock w' = clock w /\
  db_fault w' = db_fault w.
Proof.
  cbv zeta. rewrite analyze_sentiment_cases.
  destruct (all_space text); repeat split; reflexivity.
Qed.

Lemma keywords_found_spec keywords text k :
  In k (keywords_found keywords text) <->
  In k keywords /\ exists a b, lower text = a +:+ k +:+ b.
Proof.
  unfold keywords_found. rewrite filter_In, contains_spec. reflexivity.
Qed.

Lemma keyword_count_found keywords text :
  keyword_count keywords (lower text) = length (keywords_found keywords text).
Proof.
  unfold keyword_count, keywords_found.
  induction (List.filter _ keywords) as [|k l IH]; simpl; [reflexivity|].
  now rewrite IH.
Qed.

Lemma lower_char_letter c k :
  is_lower_letter k = true -> Ascii.eqb (lower_char c) k = same_letter c k.
Proof.
  destruct k as [[] [] [] [] [] [] [] []]; try discriminate; intros _;
    destruct c as [[] [] [] [] [] [] [] []]; reflexivity.
Qed.

Lemma startswith_any_case kw s :
  lower_letters kw = true -> startswith kw (lower s) = begins_any_case kw s.
Proof.
  revert s. induction kw as [|k kw IH]; intros s Hkw; [now destruct s|].
  cbn [lower_letters] in Hkw. apply andb_true_iff in Hkw as [Hk Hkw].
  destruct s as [|c s]; [reflexivity|].
  cbn [lower startswith begins_any_case].
  rewrite <- (lower_char_letter c k Hk), (IH s Hkw).
  f_equal. apply Ascii.eqb_sym.
Qed.

Lemma contains_any_case kw s :
  lower_letters kw = true -> contains kw (lower s) = occurs_any_case kw s.
Proof.
  intros Hkw. induction s as [|c s IH].
  - cbn [lower contains occurs_any_case]. now rewrite <- startswith_any_case.
  - cbn [lower contains occurs_any_case]. rewrite <- IH.
    now rewrite <- (startswith_any_case kw (String c s)).
Qed.

Lemma keywords_found_present keywords text :
  forallb lower_letters keywords = true ->
  keywords_found keywords text = keywords_present keywords text.
Proof.
  unfold keywords_found, keywords_present.
  induction keywords as [|kw keywords IH]; [reflexivity|].
  cbn [forallb List.filter]. intros [Hkw Hall]%andb_true_iff.
  now rewrite (contains_any_case kw text Hkw), (IH Hall).
Qed.

(** C2, as the code has it.  When the text is not blank and the call to
    the model raises, or its response has no first word or a first word
    that is not a valid label, [analyze_sentiment] returns the keyword
    vote on the whole text, letter case apart: with [neg] the number of
    negative keywords that occur in it as substrings, each keyword counted
    once however often it occurs, and [pos] the number of positive ones,
    the label is negative when [neg > pos], positive when [pos > neg] and
    neutral when they are equal.  For the text "This is terrible, broken,
    and the worst experience, bad bad bad" the label is negative. *)
Theorem fallback_keyword_vote text w :
  all_space text = false ->
  match generate_content (ai_log w) (classifier_prompt text) with
  | Ok response => parsed_label response = None
  | Raise _ => True
  end ->
  let neg := length (keywords_present negative_keywords text) in
  let pos := length (keywords_present positive_keywords text) in
  exists label,
    fst (analyze_sentiment generate_content text w) = Ok label /\
    (pos < neg -> label = "negative") /\
    (neg < pos -> label = "positive") /\
    (neg = pos -> label = "neutral") /\
    (text = example_text -> label = "negative").
Proof.
  intros Hb Hfail neg pos.
  exists (_fallback_sentiment text). split.
  - rewrite analyze_sentiment_cases, Hb. simpl.
    destruct (generate_content _ _) as [response|e]; [|reflexivity].
    now rewrite Hfail.
  - unfold _fallback_sentiment. cbv zeta.
    rewrite !keyword_count_found, !keywords_found_present by reflexivity.
    fold neg pos.
    destruct (pos <? neg) eqn:H1; [apply Nat.ltb_lt in H1 | apply Nat.ltb_ge in H1];
      [|destruct (neg <? pos) eqn:H2;
        [apply Nat.ltb_lt in H2 | apply Nat.ltb_ge in H2]].
    + repeat split; intros; try reflexivity; lia.
    + repeat split; intros; try reflexivity; try lia.
      subst text. vm_compute in H2. lia.
    + repeat split; intros; try reflexivity; try lia.
      subst text. vm_compute in H1, H2. lia.
Qed.

End Classifier.

Lemma analyze_sentiment_total_witness :
  exists label w',
    analyze_sentiment unavailable "   " world0 = (Ok label, w') /\
    label = "neutral" /\ w' = world0.
Proof.
  destruct (analyze_sentiment_total unavailable "   " world0)
    as (label & w' & Hrun & _ & Hblank).
  exists label, w'. split; [exact Hrun|]. apply Hblank. reflexivity.
Defined.

Lemma fallback_keyword_vote_witness :
  exists label,
    fst (analyze_sentiment unavailable example_text world0) = Ok label /\
    label = "negative".
Proof.
  destruct (fallback_keyword_vote unavailable example_text world0 eq_refl I)
    as (label & Hrun & _ & _ & _ & Hex).
  exists label. split; [exact Hrun | apply Hex; reflexivity].
Defined.

(** C2, as the specification has it, fails: in "bad bad bad great good"
    the negative keyword "bad" occurs three times and the positive
    keywords "great" and "good" once each.  By occurrences the vote is
    negative, three against two; the fallback counts one keyword against
    two and returns positive. *)
Lemma fallback_counts_each_keyword_once :
  all_space repeated_text = false /\
  occurrence_count negative_keywords (lower repeated_text) = 3 /\
  occurrence_count positive_keywords (lower repeated_text) = 2 /\
  occurrence_vote repeated_text = "negative" /\
  keywords_present negative_keywords repeated_text = ["bad"] /\
  keywords_present positive_keywords repeated_text = ["great"; "good"] /\
  fst (analyze_sentiment unavailable repeated_text world0) = Ok "positive" /\
  fst (analyze_sentiment unavailable repeated_text world0)
  <> Ok (occurrence_vote repeated_text).
Proof.
  split; [reflexivity|]. split; [reflexivity|]. split; [reflexivity|].
  split; [reflexivity|]. split; [reflexivity|]. split; [reflexivity|].
  split; [reflexivity|]. vm_compute. discriminate.
Defined.

(** ** The summarizer *)

Section Summarizer.

Variable generate_content : list string -> string -> result string.
Variable MAX_FEEDBACK_FOR_SUMMARY : nat.

(** What [summarize_feedback] does, case by case. *)
Lemma summarize_feedback_cases feedback_texts context w :
  summarize_feedback generate_content MAX_FEEDBACK_FOR_SUMMARY feedback_texts context w =
    match feedback_texts with
    | [] => (Ok no_feedback_message, w)
    | _ :: _ =>
        let prompt :=
          summary_prompt context (take MAX_FEEDBACK_FOR_SUMMARY feedback_texts) in
        (match generate_content (ai_log w) prompt with
         | Ok response => Ok (strip response)
         | Raise e =>
             Raise (AIServiceError ("Failed to generate summary: " +:+ str_exn e) e)
         end,
         sent prompt w)
    end.
Proof.
  destruct feedback_texts as [|t ts]; [reflexivity|].
  unfold summarize_feedback, try_except, bind, model_text, sent, raise, ret.
  cbv zeta. destruct (generate_content _ _); reflexivity.
Qed.

(** C6. For the empty list [summarize_feedback] returns the fixed message
    and leaves the world as it was (the model is not called); and it
    raises exactly when the list is not empty and the call to the model
    raises: the exception is then an [AIServiceError] whose cause is the
    exception of the call and whose message quotes it. *)
Theorem summarize_feedback_raises_iff feedback_texts context w :
  (feedback_texts = [] ->
   summarize_feedback generate_content MAX_FEEDBACK_FOR_SUMMARY feedback_texts context w
   = (Ok "No feedback available to summarize.", w)) /\
  (forall e,
     fst (summarize_feedback generate_content MAX_FEEDBACK_FOR_SUMMARY
            feedback_texts context w) = Raise e <->
     feedback_texts <> [] /\
     exists cause,
       generate_content (ai_log w)
         (summary_prompt context (take MAX_FEEDBACK_FOR_SUMMARY feedback_texts))
       = Raise cause /\
       e = AIServiceError ("Failed to generate summary: " +:+ str_exn cause) cause).
Proof.
  rewrite summarize_feedback_cases. split.
  - intros ->. reflexivity.
  - intros e. destruct feedback_texts as [|t ts]; simpl.
    + split; [discriminate | intros [H _]; now contradiction H].
    + destruct (generate_content _ _) as [response|cause]; split.
      * discriminate.
      * intros [_ [cause [Hc _]]]. discriminate.
      * intros [= <-]. split; [discriminate | now exists cause].
      * intros [_ [cause' [[= <-] ->]]]. reflexivity.
Qed.

(** The first part of C7: of a non-empty list, the one prompt that
    goes to the model is made of a prefix [selected] of the texts, of
    length [min cap (length texts)], in the order of the list; what
    follows the prefix has no part in the outcome. *)
Lemma summarize_feedback_prefix feedback_texts context w :
  feedback_texts <> [] ->
  exists selected rest,
    feedback_texts = selected ++ rest /\
    length selected = Nat.min MAX_FEEDBACK_FOR_SUMMARY (length feedback_texts) /\
    ai_log (snd (summarize_feedback generate_content MAX_FEEDBACK_FOR_SUMMARY
                   feedback_texts context w))
    = ai_log w ++ [summary_prompt context selected] /\
    forall rest',
      length selected = MAX_FEEDBACK_FOR_SUMMARY \/ rest' = [] ->
      selected ++ rest' <> [] ->
      summarize_feedback generate_content MAX_FEEDBACK_FOR_SUMMARY
        (selected ++ rest') context w
      = summarize_feedback generate_content MAX_FEEDBACK_FOR_SUMMARY
          feedback_texts context w.
Proof.
  intros Hne.
  exists (take MAX_FEEDBACK_FOR_SUMMARY feedback_texts),
         (drop MAX_FEEDBACK_FOR_SUMMARY feedback_texts).
  split; [now rewrite take_drop|].
  split; [apply length_take|].
  rewrite summarize_feedback_cases.
  destruct feedback_texts as [|t ts] eqn:Ht; [contradiction|]. rewrite <- Ht.
  split; [reflexivity|].
  intros rest' Hlen Hne'. rewrite summarize_feedback_cases.
  destruct (take _ _ ++ rest') as [|t' ts'] eqn:Ht'; [contradiction|].
  rewrite <- Ht'.
  assert (Hsame : take MAX_FEEDBACK_FOR_SUMMARY
                    (take MAX_FEEDBACK_FOR_SUMMARY feedback_texts ++ rest')
                  = take MAX_FEEDBACK_FOR_SUMMARY feedback_texts).
  { destruct Hlen as [Hlen | ->].
    - rewrite take_app_le by lia. rewrite take_ge by lia. reflexivity.
    - rewrite app_nil_r, take_take, Nat.min_id. reflexivity. }
  cbv zeta. rewrite Hsame. reflexivity.
Qed.

Lemma join_lookup sep (l : list string) i x :
  l !! i = Some x -> exists a b, join sep l = a +:+ x +:+ b.
Proof.
  revert i. induction l as [|y l IH]; intros i Hi; [discriminate|].
  destruct i as [|i].
  - injection Hi as ->. exists "". destruct l as [|z l].
    + exists "". cbn [join]. now rewrite string_app_nil_r.
    + now exists (sep +:+ join sep (z :: l)).
  - cbn in Hi. destruct (IH i Hi) as (a & b & Hj).
    destruct l as [|z l]; [discriminate|].
    exists (y +:+ sep +:+ a), b.
    change (join sep (y :: z :: l)) with (y +:+ sep +:+ join sep (z :: l)).
    now rewrite Hj, !string_app_assoc.
Qed.

Lemma occurs_after (x y p : string) :
  (exists a b, y = a +:+ x +:+ b) -> exists a b, p +:+ y = a +:+ x +:+ b.
Proof.
  intros (a & b & ->). exists (p +:+ a), b. now rewrite string_app_assoc.
Qed.

Lemma occurs_before (x y q : string) :
  (exists a b, y = a +:+ x +:+ b) -> exists a b, y +:+ q = a +:+ x +:+ b.
Proof.
  intros (a & b & ->). exists a, (b +:+ q). now rewrite !string_app_assoc.
Qed.

(** Every text that is selected has its numbered entry in the prompt. *)
Lemma summary_prompt_entry context (selected : list string) i text_ :
  selected !! i = Some text_ ->
  contains (prompt_entry i text_) (summary_prompt context selected) = true.
Proof.
  intros Hi. apply contains_spec.
  assert (Hblock : exists a b,
            feedback_block selected = a +:+ prompt_entry i text_ +:+ b).
  { unfold feedback_block. apply join_lookup with (i := i).
    rewrite list_lookup_imap, Hi. reflexivity. }
  unfold summary_prompt. generalize dependent (feedback_block selected).
  intros block Hblock.
  do 14 apply occurs_after. apply occurs_before. exact Hblock.
Qed.

Lemma join_lookup_two sep (l : list string) i j x y :
  i < j -> l !! i = Some x -> l !! j = Some y ->
  exists a b c, join sep l = a +:+ x +:+ b +:+ y +:+ c.
Proof.
  revert i j. induction l as [|z l IH]; intros i j Hij Hi Hj; [discriminate|].
  destruct j as [|j]; [lia|]. cbn in Hj.
  destruct l as [|z' l]; [discriminate|].
  change (join sep (z :: z' :: l)) with (z +:+ sep +:+ join sep (z' :: l)).
  destruct i as [|i].
  - injection Hi as ->. destruct (join_lookup sep _ _ _ Hj) as (a & b & ->).
    exists "", (sep +:+ a), b. now rewrite !string_app_assoc.
  - cbn in Hi. destruct (IH i j ltac:(lia) Hi Hj) as (a & b & c & ->).
    exists (z +:+ sep +:+ a), b, c. now rewrite !string_app_assoc.
Qed.

Lemma follows_after (x y s p : string) :
  (exists a b c, s = a +:+ x +:+ b +:+ y +:+ c) ->
  exists a b c, p +:+ s = a +:+ x +:+ b +:+ y +:+ c.
Proof.
  intros (a & b & c & ->). exists (p +:+ a), b, c. now rewrite string_app_assoc.
Qed.

Lemma follows_before (x y s q : string) :
  (exists a b c, s = a +:+ x +:+ b +:+ y +:+ c) ->
  exists a b c, s +:+ q = a +:+ x +:+ b +:+ y +:+ c.
Proof.
  intros (a & b & c & ->). exists a, b, (c +:+ q). now rewrite !string_app_assoc.
Qed.

(** Of two texts that are selected, the entry of the one that comes
    first in the list comes first in the prompt. *)
Lemma summary_prompt_order context (selected : list string) i j text_i text_j :
  i < j -> selected !! i = Some text_i -> selected !! j = Some text_j ->
  exists a b c,
    summary_prompt context selected
    = a +:+ prompt_entry i text_i +:+ b +:+ prompt_entry j text_j +:+ c.
Proof.
  intros Hij Hi Hj.
  assert (Hblock : exists a b c,
            feedback_block selected
            = a +:+ prompt_entry i text_i +:+ b +:+ prompt_entry j text_j +:+ c).
  { unfold feedback_block. apply join_lookup_two with (i := i) (j := j); [exact Hij| |].
    - rewrite list_lookup_imap, Hi. reflexivity.
    - rewrite list_lookup_imap, Hj. reflexivity. }
  unfold summary_prompt. generalize dependent (feedback_block selected).
  intros block Hblock.
  do 14 apply follows_after. apply follows_before. exact Hblock.
Qed.

End Summarizer.

(** ** Resolution of the feedback to summarize *)

Section Resolution.

Variable generate_content : list string -> string -> result string.
Variable MAX_FEEDBACK_FOR_SUMMARY : nat.
Variable fromisoformat : string -> option Z.

Lemma parse_date_cases value detail w :
  parse_date fromisoformat value detail w =
    (match date_of fromisoformat value with
     | Some dt => Ok dt
     | None => Raise (HTTPException 400 detail)
     end, w).
Proof.
  unfold parse_date, date_of. destruct (given value); [|reflexivity].
  destruct (fromisoformat _); reflexivity.
Qed.

Lemma get_feedback_capped search source_ sentiment_ start_date end_date w :
  get_feedback 0 (Z.of_nat MAX_FEEDBACK_FOR_SUMMARY)
    search source_ sentiment_ start_date end_date w
  = (Ok (recent_matching MAX_FEEDBACK_FOR_SUMMARY search source_ sentiment_ start_date end_date (db w),
         length (apply_filters search source_ sentiment_ start_date end_date (db w))),
     w).
Proof.
  unfold get_feedback, recent_matching. cbv zeta.
  replace (Z.of_nat MAX_FEEDBACK_FOR_SUMMARY <? 0)%Z with false
    by (symmetry; apply Z.ltb_ge; lia).
  simpl. rewrite Nat2Z.id. reflexivity.
Qed.

(** What [resolve_feedback] does, case by case.  It never changes the
    world. *)
Lemma resolve_feedback_cases request w :
  resolve_feedback MAX_FEEDBACK_FOR_SUMMARY fromisoformat request w =
    (match feedback_ids request with
     | Some ((_ :: _) as ids) => nonempty_or no_ids_found (rows_with_ids ids (db w))
     | _ =>
         match filters request with
         | Some filters_ =>
             if dict_truthy filters_ then
               match date_of fromisoformat (filters_ !! "start_date") with
               | None => Raise (HTTPException 400 "Invalid start_date format in filters")
               | Some start_dt =>
                   match date_of fromisoformat (filters_ !! "end_date") with
                   | None => Raise (HTTPException 400 "Invalid end_date format in filters")
                   | Some end_dt =>
                       nonempty_or nothing_to_summarize
                         (recent_matching MAX_FEEDBACK_FOR_SUMMARY (filters_ !! "search") (filters_ !! "source")
                            (filters_ !! "sentiment") start_dt end_dt (db w))
                   end
               end
             else
               nonempty_or nothing_to_summarize
                 (recent_matching MAX_FEEDBACK_FOR_SUMMARY None None None None None (db w))
         | None =>
             nonempty_or nothing_to_summarize
               (recent_matching MAX_FEEDBACK_FOR_SUMMARY None None None None None (db w))
         end
     end, w).
Proof.
  assert (Hrecent :
    bind (do ' (feedback_items, _) <-
            get_feedback 0 (Z.of_nat MAX_FEEDBACK_FOR_SUMMARY)
              None None None None None ;;
          ret feedback_items)
      (fun feedback_items =>
         match feedback_items with
         | [] => raise nothing_to_summarize
         | _ :: _ => ret feedback_items
         end) w
    = (nonempty_or nothing_to_summarize
         (recent_matching MAX_FEEDBACK_FOR_SUMMARY None None None None None (db w)), w)).
  { unfold bind. rewrite get_feedback_capped.
    destruct (recent_matching _ _ _ _ _ _ _); reflexivity. }
  unfold resolve_feedback.
  destruct (feedback_ids request) as [[|i ids]|].
  - destruct (filters request) as [filters_|]; [|exact Hrecent].
    destruct (dict_truthy filters_); [|exact Hrecent].
    clear Hrecent. unfold bind. rewrite parse_date_cases.
    destruct (date_of fromisoformat (filters_ !! "start_date")) as [start_dt|]; [|reflexivity].
    rewrite parse_date_cases.
    destruct (date_of fromisoformat (filters_ !! "end_date")) as [end_dt|]; [|reflexivity].
    rewrite get_feedback_capped.
    destruct (recent_matching _ _ _ _ _ _ _); reflexivity.
  - unfold bind, get_feedback_by_ids, rows_with_ids.
    destruct (List.filter _ (db w)); reflexivity.
  - destruct (filters request) as [filters_|]; [|exact Hrecent].
    destruct (dict_truthy filters_); [|exact Hrecent].
    clear Hrecent. unfold bind. rewrite parse_date_cases.
    destruct (date_of fromisoformat (filters_ !! "start_date")) as [start_dt|]; [|reflexivity].
    rewrite parse_date_cases.
    destruct (date_of fromisoformat (filters_ !! "end_date")) as [end_dt|]; [|reflexivity].
    rewrite get_feedback_capped.
    destruct (recent_matching _ _ _ _ _ _ _); reflexivity.
Qed.

(** The errors of the resolution are the two of the route itself and the
    two of a malformed date. *)
Lemma resolve_feedback_raises request w e w' :
  resolve_feedback MAX_FEEDBACK_FOR_SUMMARY fromisoformat request w = (Raise e, w') ->
  e = no_ids_found \/ exists detail, e = HTTPException 400 detail.
Proof.
  rewrite resolve_feedback_cases. intros [= H _]. revert H.
  assert (Hne : forall err l, nonempty_or err l = Raise e -> e = err).
  { intros err [|x l]; simpl; congruence. }
  destruct (feedback_ids request) as [[|i ids]|];
    try (intros H; apply Hne in H; now left).
  all: destruct (filters request) as [filters_|];
    [destruct (dict_truthy filters_);
     [destruct (date_of fromisoformat (filters_ !! "start_date"));
      [destruct (date_of fromisoformat (filters_ !! "end_date"))|]|]|].
  all: try (intros H; apply Hne in H; subst e; right; eexists; reflexivity).
  all: intros [= ?]; subst e; right; eexists; reflexivity.
Qed.

Lemma resolve_feedback_nonempty request w feedback_items w' :
  resolve_feedback MAX_FEEDBACK_FOR_SUMMARY fromisoformat request w
  = (Ok feedback_items, w') ->
  feedback_items <> [] /\ w' = w.
Proof.
  rewrite resolve_feedback_cases. intros [= H ->]. split; [|reflexivity].
  revert H.
  assert (Hne : forall err l, nonempty_or err l = Ok feedback_items ->
                              feedback_items <> []).
  { intros err [|x l]; simpl; [discriminate|]. now intros [= <-]. }
  destruct (feedback_ids request) as [[|i ids]|]; try apply Hne.
  all: destruct (filters request) as [filters_|];
    [destruct (dict_truthy filters_);
     [destruct (date_of fromisoformat (filters_ !! "start_date"));
      [destruct (date_of fromisoformat (filters_ !! "end_date"))|]|]|].
  all: try apply Hne; discriminate.
Qed.

(** What the route does once the feedback is resolved. *)
Lemma summarize_feedback_route_cases request w :
  summarize_feedback_route generate_content MAX_FEEDBACK_FOR_SUMMARY fromisoformat
    request w =
    match fst (resolve_feedback MAX_FEEDBACK_FOR_SUMMARY fromisoformat request w) with
    | Raise e => (Raise e, w)
    | Ok feedback_items =>
        match summarize_feedback generate_content MAX_FEEDBACK_FOR_SUMMARY
                (map text feedback_items) (default ∅ (filters request)) w with
        | (Ok summary_, w') =>
            (Ok {| summary := summary_;
                   feedback_count := length feedback_items;
                   sentiment_breakdown := count_sentiments feedback_items |}, w')
        | (Raise e, w') => (Raise e, w')
        end
    end.
Proof.
  unfold summarize_feedback_route, try_except, bind.
  destruct (resolve_feedback _ _ request w) as [[feedback_items|e] w1] eqn:Hres.
  - apply resolve_feedback_nonempty in Hres as [Hne ->]. simpl.
    rewrite summarize_feedback_cases.
    destruct feedback_items as [|r rs]; [contradiction|]. simpl.
    destruct (generate_content _ _); reflexivity.
  - pose proof Hres as Hw. rewrite resolve_feedback_cases in Hw.
    injection Hw as _ <-.
    apply resolve_feedback_raises in Hres as [-> | [detail ->]]; reflexivity.
Qed.

End Resolution.

(** ** Counting in dictionaries *)

Section Counting.

Lemma dict_sum_empty : dict_sum ∅ = 0.
Proof. apply map_fold_empty. Qed.

Lemma dict_sum_insert (d : gmap string nat) k v :
  dict_sum (<[k := v]> d) + default 0 (d !! k) = dict_sum d + v.
Proof.
  unfold dict_sum. destruct (d !! k) as [x|] eqn:Hk; simpl.
  - rewrite <- insert_delete_eq.
    rewrite map_fold_insert_L; [|intros; lia | apply lookup_delete_eq].
    rewrite (map_fold_delete_L _ _ k x d); [lia | intros; lia | exact Hk].
  - rewrite map_fold_insert_L; [lia | intros; lia | exact Hk].
Qed.

Lemma tally_lookup feedback_items :
  forall (d : gmap string nat) label,
    (forall k, d !! k <> Some 0) ->
    foldl (fun breakdown item =>
             let sentiment_ := or_unknown (sentiment item) in
             <[sentiment_ := default 0 (breakdown !! sentiment_) + 1]> breakdown)
      d feedback_items !! label
    = let n := default 0 (d !! label) + count_label label feedback_items in
      if n =? 0 then None else Some n.
Proof.
  induction feedback_items as [|r rs IH]; intros d label Hpos.
  - simpl. unfold count_label. simpl. rewrite Nat.add_0_r.
    destruct (d !! label) as [v|] eqn:Hl; simpl; [|reflexivity].
    destruct v; [now contradiction (Hpos label) | reflexivity].
  - cbn [foldl]. rewrite IH.
    + cbv zeta. unfold count_label. cbn [List.filter].
      destruct (String.eqb_spec (or_unknown (sentiment r)) label) as [->|Hne].
      * rewrite lookup_insert_eq. cbn [default length].
        set (n := length (List.filter _ rs)). unfold Datatypes.id.
        replace (default 0 (d !! label) + 1 + n)
          with (default 0 (d !! label) + S n) by lia.
        reflexivity.
      * rewrite lookup_insert_ne by exact Hne. reflexivity.
    + intros k. cbv zeta.
      destruct (decide (or_unknown (sentiment r) = k)) as [->|Hne].
      * rewrite lookup_insert_eq. intros [= H]. lia.
      * rewrite lookup_insert_ne by exact Hne. apply Hpos.
Qed.

(** The breakdown holds, for every label, the number of items filed
    under it, and no entry for a label without items. *)
Lemma count_sentiments_lookup feedback_items label :
  count_sentiments feedback_items !! label =
    if count_label label feedback_items =? 0 then None
    else Some (count_label label feedback_items).
Proof.
  unfold count_sentiments. rewrite tally_lookup.
  - rewrite lookup_empty. reflexivity.
  - intros k. rewrite lookup_empty. discriminate.
Qed.

(** Every item is counted once. *)
Lemma count_sentiments_sum feedback_items :
  dict_sum (count_sentiments feedback_items) = length feedback_items.
Proof.
  unfold count_sentiments.
  enough (H : forall d : gmap string nat,
            dict_sum (foldl (fun breakdown item =>
               let sentiment_ := or_unknown (sentiment item) in
               <[sentiment_ := default 0 (breakdown !! sentiment_) + 1]> breakdown)
               d feedback_items)
            = dict_sum d + length feedback_items).
  { rewrite H, dict_sum_empty. reflexivity. }
  induction feedback_items as [|r rs IH]; intros d; simpl; [lia|].
  rewrite IH.
  pose proof (dict_sum_insert d (or_unknown (sentiment r))
                (default 0 (d !! or_unknown (sentiment r)) + 1)) as H.
  lia.
Qed.

End Counting.

(** ** The summarization route *)

Section SummarizeRoute.

Variable generate_content : list string -> string -> result string.
Variable MAX_FEEDBACK_FOR_SUMMARY : nat.
Variable fromisoformat : string -> option Z.

Lemma dict_truthy_spec {V} (d : gmap string V) : dict_truthy d = true <-> d <> ∅.
Proof.
  unfold dict_truthy. rewrite negb_true_iff, bool_decide_eq_false. reflexivity.
Qed.

Lemma rows_with_ids_none ids rows :
  (forall r, In r rows -> ~ In (id r) ids) -> rows_with_ids ids rows = [].
Proof.
  intros H. unfold rows_with_ids.
  induction rows as [|r rows IH]; simpl; [reflexivity|].
  destruct (existsb _ ids) eqn:He.
  - apply existsb_exists in He as [i [Hi Heq]]. apply Z.eqb_eq in Heq.
    exfalso. apply (H r); [now left | now rewrite Heq].
  - apply IH. intros r' Hr'. apply H. now right.
Qed.

(** C5. The feedback to summarize is resolved in one of three ways, tried
    in this order.  With a non-empty list of identifiers, whatever the
    filters, it is the rows with these identifiers, and when no row has
    one of them the route fails with 404, which is [NotFound].  Else,
    with a non-empty dictionary of filters whose dates are well formed,
    it is the most recent rows that pass the filters, up to the cap; else
    it is the most recent rows, up to the cap; and when that selection is
    empty the route fails with 400, which is [InvalidArgument].  A failed
    resolution leaves the world as it was. *)
Theorem summarize_failure_modes request w :
  (forall ids,
     feedback_ids request = Some ids -> ids <> [] ->
     fst (resolve_feedback MAX_FEEDBACK_FOR_SUMMARY fromisoformat request w)
     = nonempty_or (HTTPException 404 "No feedback found with the provided IDs")
         (rows_with_ids ids (db w)) /\
     ((forall r, In r (db w) -> ~ In (id r) ids) ->
      summarize_feedback_route generate_content MAX_FEEDBACK_FOR_SUMMARY
        fromisoformat request w
      = (Raise (HTTPException 404 "No feedback found with the provided IDs"), w))) /\
  (forall filters_ start_dt end_dt,
     feedback_ids request = None \/ feedback_ids request = Some [] ->
     filters request = Some filters_ -> filters_ <> ∅ ->
     date_of fromisoformat (filters_ !! "start_date") = Some start_dt ->
     date_of fromisoformat (filters_ !! "end_date") = Some end_dt ->
     let resolved :=
       recent_matching MAX_FEEDBACK_FOR_SUMMARY (filters_ !! "search")
         (filters_ !! "source") (filters_ !! "sentiment") start_dt end_dt (db w) in
     fst (resolve_feedback MAX_FEEDBACK_FOR_SUMMARY fromisoformat request w)
     = nonempty_or (HTTPException 400 "No feedback found to summarize") resolved /\
     (resolved = [] ->
      summarize_feedback_route generate_content MAX_FEEDBACK_FOR_SUMMARY
        fromisoformat request w
      = (Raise (HTTPException 400 "No feedback found to summarize"), w))) /\
  (feedback_ids request = None \/ feedback_ids request = Some [] ->
   filters request = None \/ filters request = Some ∅ ->
   let resolved :=
     recent_matching MAX_FEEDBACK_FOR_SUMMARY None None None None None (db w) in
   fst (resolve_feedback MAX_FEEDBACK_FOR_SUMMARY fromisoformat request w)
   = nonempty_or (HTTPException 400 "No feedback found to summarize") resolved /\
   (resolved = [] ->
    summarize_feedback_route generate_content MAX_FEEDBACK_FOR_SUMMARY
      fromisoformat request w
    = (Raise (HTTPException 400 "No feedback found to summarize"), w))) /\
  kind_of (HTTPException 404 "No feedback found with the provided IDs") = NotFound /\
  kind_of (HTTPException 400 "No feedback found to summarize") = InvalidArgument.
Proof.
  rewrite summarize_feedback_route_cases, resolve_feedback_cases.
  cbn [fst]. repeat split.
  - destruct ids as [|i ids]; [contradiction|]. rewrite H. reflexivity.
  - intros Hnone. destruct ids as [|i ids]; [contradiction|]. rewrite H.
    rewrite rows_with_ids_none by exact Hnone. reflexivity.
  - apply dict_truthy_spec in H1.
    destruct H as [-> | ->]; rewrite H0, H1, H2, H3; reflexivity.
  - intros Hnone. apply dict_truthy_spec in H1.
    destruct H as [-> | ->]; rewrite H0, H1, H2, H3;
      fold (recent_matching MAX_FEEDBACK_FOR_SUMMARY);
      unfold nothing_to_summarize; rewrite Hnone; reflexivity.
  - destruct H as [-> | ->], H0 as [-> | ->]; reflexivity.
  - intros Hnone.
    destruct H as [-> | ->], H0 as [-> | ->]; cbn [dict_truthy];
      unfold nothing_to_summarize; try rewrite Hnone; try reflexivity.
    all: change (dict_truthy (∅ : gmap string string)) with false;
      cbv iota; rewrite Hnone; reflexivity.
Qed.


(** C7. Of a non-empty list of texts, the one prompt [summarize_feedback]
    sends to the model is made of a prefix of the list, of length
    [min cap (length texts)], in the order of the list: every text of the
    prefix is in the prompt, under its position in the list counted from
    one, and of two of them the one that comes first in the list comes
    first in the prompt.  The texts after the prefix have no part in the
    outcome.  When the route
    succeeds, its count and its breakdown are those of all the resolved
    items, however many went into the prompt: for every label the
    breakdown holds the number of items filed under it (an item without
    a sentiment is filed under "unknown"), and its values sum to the
    number of resolved items. *)
Theorem summary_capped_breakdown_complete request w :
  (forall feedback_texts context,
     feedback_texts <> [] ->
     exists selected rest,
       feedback_texts = selected ++ rest /\
       length selected = Nat.min MAX_FEEDBACK_FOR_SUMMARY (length feedback_texts) /\
       ai_log (snd (summarize_feedback generate_content MAX_FEEDBACK_FOR_SUMMARY
                      feedback_texts context w))
       = ai_log w ++ [summary_prompt context selected] /\
       (forall i text_,
          selected !! i = Some text_ ->
          contains (prompt_entry i text_) (summary_prompt context selected) = true) /\
       (forall i j text_i text_j,
          i < j -> selected !! i = Some text_i -> selected !! j = Some text_j ->
          exists a b c,
            summary_prompt context selected
            = a +:+ prompt_entry i text_i +:+ b +:+ prompt_entry j text_j +:+ c) /\
       forall rest',
         length selected = MAX_FEEDBACK_FOR_SUMMARY \/ rest' = [] ->
         selected ++ rest' <> [] ->
         summarize_feedback generate_content MAX_FEEDBACK_FOR_SUMMARY
           (selected ++ rest') context w
         = summarize_feedback generate_content MAX_FEEDBACK_FOR_SUMMARY
             feedback_texts context w) /\
  (forall response w',
     summarize_feedback_route generate_content MAX_FEEDBACK_FOR_SUMMARY
       fromisoformat request w = (Ok response, w') ->
     exists feedback_items,
       fst (resolve_feedback MAX_FEEDBACK_FOR_SUMMARY fromisoformat request w)
       = Ok feedback_items /\
       ai_log w' = ai_log w ++
         [summary_prompt (default ∅ (filters request))
            (take MAX_FEEDBACK_FOR_SUMMARY (map text feedback_items))] /\
       feedback_count response = length feedback_items /\
       (forall label,
          sentiment_breakdown response !! label =
            if count_label label feedback_items =? 0 then None
            else Some (count_label label feedback_items)) /\
       dict_sum (sentiment_breakdown response) = length feedback_items /\
       or_unknown None = "unknown").
Proof.
  split.
  - intros feedback_texts context Hne.
    destruct (summarize_feedback_prefix generate_content MAX_FEEDBACK_FOR_SUMMARY
                feedback_texts context w Hne)
      as (selected & rest & Hsplit & Hlen & Hlog & Hrest).
    exists selected, rest. split; [exact Hsplit|]. split; [exact Hlen|].
    split; [exact Hlog|]. split; [|split; [|exact Hrest]].
    + intros i text_. apply summary_prompt_entry.
    + intros i j text_i text_j. apply summary_prompt_order.
  - intros response w'. rewrite summarize_feedback_route_cases.
    destruct (resolve_feedback _ _ request w) as [[feedback_items|e] w1] eqn:Hr;
      cbn [fst]; [|discriminate].
    apply resolve_feedback_nonempty in Hr as [Hne _].
    rewrite summarize_feedback_cases.
    destruct (map text feedback_items) as [|t ts] eqn:Hmap.
    { destruct feedback_items; [contradiction | discriminate]. }
    rewrite <- Hmap. cbv zeta.
    destruct (generate_content _ _) as [s|e]; [|discriminate].
    intros [= <- <-]. exists feedback_items. cbn.
    split; [reflexivity|]. split; [reflexivity|]. split; [reflexivity|].
    split; [apply count_sentiments_lookup|].
    split; [apply count_sentiments_sum | reflexivity].
Qed.

End SummarizeRoute.

Lemma summarize_feedback_raises_iff_witness :
  summarize_feedback unavailable 50 [] ∅ world0
  = (Ok "No feedback available to summarize.", world0) /\
  fst (summarize_feedback unavailable 50 ["slow"; "great"] ∅ world0)
  = Raise (AIServiceError "Failed to generate summary: 503 model unavailable"
             (ExternalError "503 model unavailable")).
Proof.
  split.
  - exact (proj1 (summarize_feedback_raises_iff unavailable 50 [] ∅ world0) eq_refl).
  - apply (proj2 (summarize_feedback_raises_iff unavailable 50 ["slow"; "great"] ∅ world0)).
    split; [discriminate|]. eexists. split; reflexivity.
Defined.

Lemma summarize_failure_modes_witness :
  summarize_feedback_route unavailable 50 iso0
    {| feedback_ids := Some [7; 8]%Z; filters := Some {[ "source" := "survey" ]} |} world1
  = (Raise (HTTPException 404 "No feedback found with the provided IDs"), world1) /\
  summarize_feedback_route unavailable 50 iso0
    {| feedback_ids := None; filters := Some {[ "source" := "email" ]} |} world1
  = (Raise (HTTPException 400 "No feedback found to summarize"), world1) /\
  summarize_feedback_route unavailable 50 iso0
    {| feedback_ids := None; filters := None |} world0
  = (Raise (HTTPException 400 "No feedback found to summarize"), world0).
Proof.
  split; [|split].
  - refine (proj2 (proj1 (summarize_failure_modes unavailable 50 iso0
                            {| feedback_ids := Some [7; 8]%Z;
                               filters := Some {[ "source" := "survey" ]} |} world1)
                     [7; 8]%Z eq_refl _) _); [discriminate|].
    intros r [<-|[<-|[<-|[]]]] [H|[H|[]]]; discriminate H.
  - refine (proj2 (proj1 (proj2 (summarize_failure_modes unavailable 50 iso0
                                   {| feedback_ids := None;
                                      filters := Some {[ "source" := "email" ]} |}
                                   world1))
                     {[ "source" := "email" ]} None None (or_introl eq_refl) eq_refl
                     _ eq_refl eq_refl) _); [|reflexivity].
    apply (proj1 (dict_truthy_spec _)). reflexivity.
  - refine (proj2 (proj1 (proj2 (proj2
              (summarize_failure_modes unavailable 50 iso0
                 {| feedback_ids := None; filters := None |} world0)))
                     (or_introl eq_refl) (or_introl eq_refl)) _).
    reflexivity.
Defined.


Lemma summary_capped_breakdown_complete_witness :
  let request := {| feedback_ids := Some [1; 2; 3]%Z; filters := None |} in
  exists response w',
    summarize_feedback_route (answering " Crashes, and praise. ") 2 iso0 request world1
    = (Ok response, w') /\
    ai_log w' = [summary_prompt ∅ ["App crashes on upload"; "Love the dark mode"]] /\
    feedback_count response = 3 /\
    sentiment_breakdown response !! "unknown" = Some 1.
Proof.
  intros request.
  destruct (summarize_feedback_route (answering " Crashes, and praise. ") 2 iso0
              request world1) as [[response|e] w'] eqn:Hrun;
    [|vm_compute in Hrun; discriminate Hrun].
  destruct (proj2 (summary_capped_breakdown_complete
                     (answering " Crashes, and praise. ") 2 iso0 request world1)
              response w' Hrun)
    as (feedback_items & Hres & Hlog & Hcount & Hbreakdown & _).
  vm_compute in Hres. injection Hres as <-.
  exists response, w'. split; [reflexivity|]. split; [exact Hlog|].
  split; [exact Hcount|]. rewrite Hbreakdown. reflexivity.
Defined.

(** ** Creation of a feedback item *)

Section Creation.

Variable generate_content : list string -> string -> result string.
Variable VALID_SOURCES : list string.
Variable VALID_SOURCES_repr : string.

(** What [create_feedback] does, case by case. *)
Lemma create_feedback_cases text_ source_ metadata w :
  create_feedback generate_content VALID_SOURCES VALID_SOURCES_repr
    text_ source_ metadata w =
    if negb (mem source_ VALID_SOURCES) then
      (Raise (ValueError ("Invalid source: " +:+ source_ +:+ ". Must be one of "
                          +:+ VALID_SOURCES_repr)), w)
    else if all_space text_ then
      (Raise (ValueError "Feedback text cannot be empty"), w)
    else
      match analyze_sentiment generate_content text_ w with
      | (Ok label, w1) =>
          let label := if mem label VALID_SENTIMENTS then label else "neutral" in
          match db_fault w1 with
          | Some e =>
              (Raise (DatabaseError ("Failed to create feedback: " +:+ str_exn e) e), w1)
          | None =>
              (Ok (new_row text_ source_ label metadata w1),
               inserted (new_row text_ source_ label metadata w1) w1)
          end
      | (Raise e, w1) =>
          (Raise (DatabaseError ("Failed to create feedback: " +:+ str_exn e) e), w1)
      end.
Proof.
  unfold create_feedback. destruct (negb (mem source_ VALID_SOURCES)); [reflexivity|].
  rewrite blank_test. destruct (all_space text_); [reflexivity|].
  unfold try_except, bind, rollback, ret, raise.
  destruct (analyze_sentiment generate_content text_ w) as [[label|e] w1];
    [|reflexivity].
  unfold add_commit_refresh, new_row, inserted.
  destruct (db_fault w1); reflexivity.
Qed.

(** C8. When the source is not one of the valid sources, or the text is
    empty or all whitespace, [create_feedback] raises a [ValueError],
    which is [InvalidArgument], and the world is as it was before the
    call: no prompt has been sent to the model and the table has no new
    row. *)
Theorem create_feedback_rejects text_ source_ metadata w :
  ~ In source_ VALID_SOURCES \/ all_space text_ = true ->
  exists msg,
    create_feedback generate_content VALID_SOURCES VALID_SOURCES_repr
      text_ source_ metadata w = (Raise (ValueError msg), w) /\
    kind_of (ValueError msg) = InvalidArgument.
Proof.
  intros Hbad. rewrite create_feedback_cases.
  destruct (mem source_ VALID_SOURCES) eqn:Hsrc; simpl.
  - destruct Hbad as [Hsrc' | ->].
    + apply mem_In in Hsrc. contradiction.
    + eexists. split; reflexivity.
  - eexists. split; reflexivity.
Qed.

(** C3, as the code has it.  For a valid source and a text that is not
    blank, [create_feedback] calls the classifier on the text as it was
    given, not on the trimmed text: the one prompt it sends is the
    classifier's prompt for the given text.  When the write succeeds the
    new row, appended to the table, holds the trimmed text and the label
    the classifier returned for the given text; when the write fails the
    call raises a [DatabaseError] and the table is unchanged. *)
Theorem create_feedback_classifies_given_stores_trimmed text_ source_ metadata w :
  In source_ VALID_SOURCES -> all_space text_ = false ->
  exists label,
    fst (analyze_sentiment generate_content text_ w) = Ok label /\
    let run := create_feedback generate_content VALID_SOURCES VALID_SOURCES_repr
                 text_ source_ metadata w in
    ai_log (snd run) = ai_log w ++ [classifier_prompt text_] /\
    (db_fault w = None ->
     exists row,
       fst run = Ok row /\ db (snd run) = db w ++ [row] /\
       text row = strip text_ /\ sentiment row = Some label /\
       source row = source_ /\ extra_data row = metadata) /\
    (forall e,
       db_fault w = Some e ->
       fst run = Raise (DatabaseError ("Failed to create feedback: " +:+ str_exn e) e) /\
       db (snd run) = db w).
Proof.
  intros Hsrc Hblank.
  destruct (analyze_sentiment_returns_label generate_content text_ w)
    as (label & w1 & Hrun & Hlabel).
  exists label. split; [now rewrite Hrun|].
  cbv zeta. rewrite create_feedback_cases.
  apply mem_In in Hsrc. rewrite Hsrc, Hblank. cbn [negb].
  assert (Hvalid : mem label VALID_SENTIMENTS = true)
    by (apply mem_In; exact Hlabel).
  rewrite Hrun, Hvalid.
  rewrite analyze_sentiment_cases, Hblank in Hrun. injection Hrun as _ <-.
  cbn [sent db_fault db ai_log].
  destruct (db_fault w) as [e|]; cbn [fst snd sent inserted db ai_log].
  - split; [reflexivity|]. split; [discriminate|].
    intros e' [= <-]. split; reflexivity.
  - split; [reflexivity|]. split; [|discriminate].
    intros _. eexists. repeat split; reflexivity.
Qed.

(** At the route, the [ValueError] of a rejected input is caught with every
    other exception and becomes a 500; the world is still as it was. *)
Remark create_feedback_route_rejects text_ source_ metadata w :
  ~ In source_ VALID_SOURCES \/ all_space text_ = true ->
  create_feedback_route generate_content VALID_SOURCES VALID_SOURCES_repr
    text_ source_ metadata w
  = (Raise (HTTPException 500 "Failed to create feedback"), w).
Proof.
  intros Hbad. unfold create_feedback_route, try_except.
  rewrite create_feedback_cases.
  destruct (mem source_ VALID_SOURCES) eqn:Hsrc; simpl.
  - destruct Hbad as [Hsrc' | ->]; [|reflexivity].
    apply mem_In in Hsrc. contradiction.
  - reflexivity.
Qed.

End Creation.

Lemma create_feedback_rejects_witness :
  (exists msg,
     create_feedback unavailable valid_sources valid_sources_repr
       "Great app" "email" None world1 = (Raise (ValueError msg), world1)) /\
  (exists msg,
     create_feedback unavailable valid_sources valid_sources_repr
       "   " "survey" None world1 = (Raise (ValueError msg), world1)).
Proof.
  split.
  - destruct (create_feedback_rejects unavailable valid_sources valid_sources_repr
                "Great app" "email" None world1) as (msg & Hrun & _).
    + left. intros [H|[H|[H|[]]]]; discriminate H.
    + now exists msg.
  - destruct (create_feedback_rejects unavailable valid_sources valid_sources_repr
                "   " "survey" None world1) as (msg & Hrun & _).
    + right. reflexivity.
    + now exists msg.
Defined.

(** C3, as the specification has it, fails: for the text "  good  " and
    the source "survey" the input is valid and the trimmed text is "good",
    but the prompt that reaches the model is the classifier's prompt for
    "  good  ", which is another prompt than the one for "good". *)
Lemma classifier_not_called_on_trimmed_text :
  let run := create_feedback unavailable valid_sources valid_sources_repr
               "  good  " "survey" None world0 in
  In "survey" valid_sources /\ all_space "  good  " = false /\
  strip "  good  " = "good" /\
  ai_log (snd run) = [classifier_prompt "  good  "] /\
  ai_log (snd run) <> ai_log world0 ++ [classifier_prompt (strip "  good  ")].
Proof.
  cbv zeta. split; [right; left; reflexivity|].
  split; [reflexivity|]. split; [reflexivity|].
  split; [reflexivity|]. vm_compute. discriminate.
Defined.

Lemma create_feedback_classifies_given_stores_trimmed_witness :
  let run := create_feedback (answering "Positive.") valid_sources valid_sources_repr
               "  good  " "survey" None world0 in
  ai_log (snd run) = [classifier_prompt "  good  "] /\
  exists row, fst run = Ok row /\ db (snd run) = [row] /\ text row = "good".
Proof.
  destruct (create_feedback_classifies_given_stores_trimmed
              (answering "Positive.") valid_sources valid_sources_repr
              "  good  " "survey" None world0)
    as (label & _ & Hlog & Hok & _).
  - right. left. reflexivity.
  - reflexivity.
  - cbv zeta. split; [exact Hlog|].
    destruct (Hok eq_refl) as (row & Hrow & Hdb & Htext & _).
    exists row. split; [exact Hrow|]. split; [exact Hdb | exact Htext].
Defined.

(** ** Statistics *)

Section Statistics.

Lemma dict_of_list_to_map {K} (f : K -> string) (pairs : list (K * nat)) :
  dict_of f pairs = list_to_map (reverse ((fun kv => (f kv.1, kv.2)) <$> pairs)).
Proof.
  unfold dict_of. induction pairs as [|kv pairs IH] using rev_ind; [reflexivity|].
  rewrite foldl_snoc, fmap_app, IH. cbn [fmap list_fmap].
  rewrite reverse_snoc, list_to_map_cons. reflexivity.
Qed.

Lemma dict_sum_list_to_map (l : list (string * nat)) :
  NoDup (l.*1) -> dict_sum (list_to_map l) = sum_list_with snd l.
Proof.
  induction l as [|[k v] l IH]; intros Hnd.
  - apply dict_sum_empty.
  - cbn [fmap list_fmap fst] in Hnd. apply NoDup_cons in Hnd as [Hk Hnd].
    rewrite list_to_map_cons. cbn [sum_list_with snd].
    pose proof (dict_sum_insert (list_to_map l) k v) as H.
    rewrite (not_elem_of_list_to_map_1 l k Hk) in H. cbn [default] in H.
    rewrite <- (IH Hnd). lia.
Qed.

(** A dictionary built from pairs whose keys are all different holds
    every count: its values sum to the sum of the counts. *)
Lemma dict_sum_dict_of {K} (f : K -> string) (pairs : list (K * nat)) :
  NoDup (f <$> pairs.*1) ->
  dict_sum (dict_of f pairs) = sum_list_with snd pairs.
Proof.
  intros Hnd. rewrite dict_of_list_to_map, dict_sum_list_to_map.
  - rewrite sum_list_with_reverse.
    induction pairs as [|kv pairs IH]; [reflexivity|].
    cbn [fmap list_fmap sum_list_with snd]. rewrite IH; [reflexivity|].
    cbn [fmap list_fmap] in Hnd. now apply NoDup_cons in Hnd as [_ Hnd].
  - rewrite fmap_reverse, reverse_Permutation.
    rewrite <- list_fmap_compose. rewrite <- list_fmap_compose in Hnd. exact Hnd.
Qed.

Lemma dict_of_lookup {K} (f : K -> string) (pairs : list (K * nat)) key v :
  NoDup (f <$> pairs.*1) ->
  dict_of f pairs !! key = Some v <-> exists k, (k, v) ∈ pairs /\ f k = key.
Proof.
  intros Hnd. rewrite dict_of_list_to_map.
  rewrite <- elem_of_list_to_map.
  - rewrite elem_of_reverse, list_elem_of_fmap. split.
    + intros [[k v'] [[= -> ->] Hin]]. now exists k.
    + intros [k [Hin <-]]. now exists (k, v).
  - rewrite fmap_reverse, reverse_Permutation.
    rewrite <- list_fmap_compose. rewrite <- list_fmap_compose in Hnd. exact Hnd.
Qed.

Section GroupCount.

Context {K : Type} `{EqDecision K} (col : Feedback -> K).

Lemma group_count_keys rows :
  (group_count col rows).*1 = remove_dups (col <$> rows).
Proof.
  unfold group_count. change (map col rows) with (col <$> rows).
  induction (remove_dups (col <$> rows)) as [|k ks IH]; [reflexivity|].
  cbn [map fmap list_fmap fst]. f_equal. exact IH.
Qed.

Lemma indicator_sum (a : K) keys :
  NoDup keys ->
  sum_list_with (fun k => if bool_decide (a = k) then 1 else 0) keys
  = if bool_decide (a ∈ keys) then 1 else 0.
Proof.
  induction 1 as [|k keys Hk Hnd IH]; [reflexivity|].
  cbn [sum_list_with]. rewrite IH.
  destruct (decide (a = k)) as [->|Hne].
  - rewrite bool_decide_eq_true_2 by reflexivity.
    rewrite (bool_decide_eq_false_2 (k ∈ keys)) by exact Hk.
    rewrite bool_decide_eq_true_2 by (now left). reflexivity.
  - rewrite (bool_decide_eq_false_2 (a = k)) by exact Hne.
    destruct (decide (a ∈ keys)) as [Hin|Hnin].
    + rewrite !bool_decide_eq_true_2; [reflexivity | now right | exact Hin].
    + rewrite !bool_decide_eq_false_2; [reflexivity| |exact Hnin].
      intros [?|?]%elem_of_cons; contradiction.
Qed.

Lemma count_sum keys rows :
  NoDup keys -> (forall r, In r rows -> col r ∈ keys) ->
  sum_list_with (fun k => count_of col k rows) keys = length rows.
Proof.
  intros Hnd. induction rows as [|r rows IH]; intros Hin.
  - clear. induction keys as [|k keys IH]; [reflexivity|].
    cbn [sum_list_with]. rewrite IH. reflexivity.
  - cbn [length]. rewrite <- IH by (intros r' Hr'; apply Hin; now right).
    assert (Hr : col r ∈ keys) by (apply Hin; now left).
    pose proof (indicator_sum (col r) keys Hnd) as Hind.
    rewrite bool_decide_eq_true_2 in Hind by exact Hr.
    change (S ?n) with (1 + n). rewrite <- Hind. clear.
    induction keys as [|k keys IHk]; [reflexivity|].
    cbn [sum_list_with]. rewrite IHk.
    unfold count_of at 1. cbn [List.filter].
    destruct (bool_decide (col r = k)); cbn [length]; unfold count_of; lia.
Qed.

(** The counts of a grouping sum to the number of rows. *)
Lemma group_count_sum rows :
  sum_list_with snd (group_count col rows) = length rows.
Proof.
  rewrite <- (count_sum (remove_dups (col <$> rows)) rows).
  - unfold group_count. change (map col rows) with (col <$> rows).
    induction (remove_dups (col <$> rows)) as [|k ks IH]; [reflexivity|].
    cbn [map sum_list_with snd]. rewrite IH. reflexivity.
  - apply NoDup_remove_dups.
  - intros r Hr. apply elem_of_remove_dups, list_elem_of_fmap.
    exists r. split; [reflexivity | now apply list_elem_of_In].
Qed.

Lemma group_count_elem k n rows :
  (k, n) ∈ group_count col rows <->
  k ∈ (col <$> rows) /\ n = count_of col k rows.
Proof.
  unfold group_count. change (map col rows) with (col <$> rows).
  change (map ?f ?l) with (f <$> l).
  rewrite list_elem_of_fmap. setoid_rewrite elem_of_remove_dups. split.
  - intros [k' [[= -> ->] Hin]]. split; [exact Hin | reflexivity].
  - intros [Hin ->]. exists k. split; [reflexivity | exact Hin].
Qed.

End GroupCount.

Lemma count_of_pos {K} `{EqDecision K} (col : Feedback -> K) k rows :
  0 < count_of col k rows <-> k ∈ (col <$> rows).
Proof.
  unfold count_of. induction rows as [|r rows IH]; cbn [List.filter fmap list_fmap].
  - split; [cbn; lia | intros H; inversion H].
  - rewrite elem_of_cons, <- IH.
    destruct (decide (col r = k)) as [Heq|Hne].
    + rewrite bool_decide_eq_true_2 by exact Heq. cbn [length].
      split; [now left | lia].
    + rewrite bool_decide_eq_false_2 by exact Hne.
      split; [now right | intros [?|?]; [congruence | assumption]].
Qed.

Lemma or_unknown_valid s : In s VALID_SENTIMENTS -> or_unknown (Some s) = s /\ s <> "unknown".
Proof. intros [<-|[<-|[<-|[]]]]; split; (reflexivity || discriminate). Qed.

(** On the sentiments of a well-formed table, no two of them get the
    same key in the dictionary of counts. *)
Lemma or_unknown_inj rows x y :
  store_ok rows -> x ∈ (sentiment <$> rows) -> y ∈ (sentiment <$> rows) ->
  or_unknown x = or_unknown y -> x = y.
Proof.
  intros Hok [rx [-> Hx]]%list_elem_of_fmap [ry [-> Hy]]%list_elem_of_fmap.
  apply list_elem_of_In, Hok in Hx, Hy. unfold sentiment_ok in Hx, Hy.
  destruct (sentiment rx) as [sx|], (sentiment ry) as [sy|]; try reflexivity.
  - apply or_unknown_valid in Hx as [-> _], Hy as [-> _]. now intros ->.
  - apply or_unknown_valid in Hx as [-> Hx]. intros ->. contradiction.
  - apply or_unknown_valid in Hy as [-> Hy]. intros <-. contradiction.
Qed.

Lemma sentiment_keys_NoDup rows :
  store_ok rows ->
  NoDup (or_unknown <$> (group_count sentiment rows).*1).
Proof.
  intros Hok. rewrite group_count_keys.
  apply NoDup_fmap_2_strong; [|apply NoDup_remove_dups].
  intros x y Hx Hy. rewrite elem_of_remove_dups in Hx, Hy.
  now apply (or_unknown_inj rows).
Qed.

(** C9. On a table whose sentiments are absent or valid labels, as the
    data model has them, [get_stats] returns statistics whose total is
    the number of rows and whose counts by sentiment sum to that total;
    the rows without a sentiment are the ones counted under "unknown",
    and there is no such entry when every row has a sentiment. *)
Theorem stats_sentiments_sum_to_total w :
  store_ok (db w) ->
  exists stats,
    get_stats w = (Ok stats, w) /\
    total_feedback stats = length (db w) /\
    dict_sum (sentiment_counts stats) = total_feedback stats /\
    let nulls := count_of sentiment None (db w) in
    sentiment_counts stats !! "unknown" = if nulls =? 0 then None else Some nulls.
Proof.
  intros Hok. eexists. split; [reflexivity|]. cbn [total_feedback sentiment_counts].
  split; [reflexivity|]. split.
  - rewrite dict_sum_dict_of by (now apply sentiment_keys_NoDup).
    apply group_count_sum.
  - cbv zeta. destruct (count_of sentiment None (db w) =? 0) eqn:Hn.
    + apply Nat.eqb_eq in Hn. apply eq_None_not_Some. intros [v Hv].
      apply dict_of_lookup in Hv as [k [Hin Hk]];
        [|now apply sentiment_keys_NoDup].
      apply group_count_elem in Hin as [Hin _].
      assert (k = None) as ->.
      { apply (or_unknown_inj (db w)); [exact Hok | exact Hin | | exact Hk].
        destruct k as [s|].
        - apply list_elem_of_fmap in Hin as [r [Hr Hin]].
          apply list_elem_of_In, Hok in Hin. unfold sentiment_ok in Hin.
          rewrite <- Hr in Hin. apply or_unknown_valid in Hin as [Hs Hne].
          rewrite Hs in Hk. contradiction.
        - exact Hin. }
      apply count_of_pos in Hin. lia.
    + apply Nat.eqb_neq in Hn.
      apply dict_of_lookup; [now apply sentiment_keys_NoDup|].
      exists None. split; [|reflexivity].
      apply group_count_elem. split; [|reflexivity].
      apply count_of_pos. lia.
Qed.

End Statistics.

Lemma world1_store_ok : store_ok (db world1).
Proof.
  intros r [<-|[<-|[<-|[]]]]; unfold sentiment_ok; simpl; auto.
Qed.

Lemma stats_sentiments_sum_to_total_witness :
  exists stats,
    get_stats world1 = (Ok stats, world1) /\
    dict_sum (sentiment_counts stats) = 3 /\
    sentiment_counts stats !! "unknown" = Some 1.
Proof.
  destruct (stats_sentiments_sum_to_total world1 world1_store_ok)
    as (stats & Hrun & Htotal & Hsum & Hunknown).
  exists stats. split; [exact Hrun|]. split.
  - rewrite Hsum, Htotal. reflexivity.
  - exact Hunknown.
Defined.

(** The invariant on sentiments is what makes the counts add up: on a
    table that breaks it, with a row without sentiment and a row whose
    sentiment is the text "unknown", both groups get the key "unknown",
    the second count replaces the first and the counts sum to less than
    the total.  No operation of the service writes such a row. *)
Example stats_outside_the_data_model :
  let w := {| db := [ {| id := 1; text := "a"; source := "survey"; sentiment := None;
                         created_at := 1; extra_data := None |};
                      {| id := 2; text := "b"; source := "survey";
                         sentiment := Some "unknown";
                         created_at := 2; extra_data := None |} ];
              next_id := 3; clock := 10; ai_log := []; db_fault := None |} in
  exists stats,
    get_stats w = (Ok stats, w) /\ total_feedback stats = 2 /\
    sentiment_counts stats !! "unknown" = Some 1 /\
    dict_sum (sentiment_counts stats) = 1.
Proof.
  cbv zeta. eexists. split; [reflexivity|]. split; [reflexivity|].
  split; [reflexivity|]. vm_compute. reflexivity.
Qed.

(** ** The invariant on sentiments is kept by every write *)

Section Invariant.

Variable generate_content : list string -> string -> result string.
Variable VALID_SOURCES : list string.
Variable VALID_SOURCES_repr : string.

Lemma analyze_sentiment_db text_ w :
  db (snd (analyze_sentiment generate_content text_ w)) = db w.
Proof.
  rewrite analyze_sentiment_cases. destruct (all_space text_); reflexivity.
Qed.

Lemma create_feedback_store_ok text_ source_ metadata w :
  store_ok (db w) ->
  store_ok (db (snd (create_feedback generate_content VALID_SOURCES
                       VALID_SOURCES_repr text_ source_ metadata w))).
Proof.
  intros Hok. rewrite create_feedback_cases.
  destruct (negb _); [exact Hok|]. destruct (all_space text_); [exact Hok|].
  pose proof (analyze_sentiment_db text_ w) as Hdb.
  destruct (analyze_sentiment generate_content text_ w) as [[label|e] w1];
    cbn [snd] in Hdb; [|cbn [snd]; now rewrite Hdb].
  cbv zeta. destruct (db_fault w1); cbn [snd]; [now rewrite Hdb|].
  cbn [inserted db]. rewrite Hdb. intros r [Hr | [<- | []]]%in_app_or.
  - apply Hok, Hr.
  - unfold sentiment_ok, new_row. cbn [sentiment].
    destruct (mem label VALID_SENTIMENTS) eqn:Hm.
    + apply mem_In, Hm.
    + simpl. auto.
Qed.

Lemma analyze_sentiment_for_feedback_store_ok feedback_id w :
  store_ok (db w) ->
  store_ok (db (snd (analyze_sentiment_for_feedback generate_content feedback_id w))).
Proof.
  intros Hok. unfold analyze_sentiment_for_feedback.
  destruct (find _ (db w)) as [feedback|]; [|exact Hok].
  unfold bind.
  destruct (analyze_sentiment_returns_label generate_content (text feedback) w)
    as (label & w1 & Hrun & Hlabel).
  pose proof (analyze_sentiment_db (text feedback) w) as Hdb.
  rewrite Hrun in Hdb |- *. cbn [snd] in Hdb.
  unfold commit_sentiment. destruct (db_fault w1); cbn [snd]; [now rewrite Hdb|].
  unfold ret. cbn [snd db]. rewrite Hdb.
  intros r [r0 [<- Hr0]]%in_map_iff.
  destruct (id r0 =? id feedback)%Z; [exact Hlabel | apply Hok, Hr0].
Qed.

End Invariant.

(** ** Patterns and substrings *)

Section Patterns.

Lemma lower_app a b : lower (a +:+ b) = lower a +:+ lower b.
Proof. induction a as [|c a IH]; simpl; [reflexivity | now rewrite IH]. Qed.

(** Folding the case leaves the pattern characters alone and makes none. *)
Lemma is_meta_lower_char c : Sql.is_meta (lower_char c) = Sql.is_meta c.
Proof. destruct c as [[] [] [] [] [] [] [] []]; reflexivity. Qed.

Lemma has_meta_lower s : Sql.has_meta (lower s) = Sql.has_meta s.
Proof.
  induction s as [|c s IH]; simpl; [reflexivity|].
  now rewrite is_meta_lower_char, IH.
Qed.

Lemma like_percent p s :
  Sql.like (String "%" p) s =
    Sql.like p s ||
    match s with
    | EmptyString => false
    | String _ s' => Sql.like (String "%" p) s'
    end.
Proof. destruct s; reflexivity. Qed.

Lemma like_literal c p s :
  Sql.is_meta c = false ->
  Sql.like (String c p) s =
    match s with
    | EmptyString => false
    | String a s' => Ascii.eqb a c && Sql.like p s'
    end.
Proof.
  destruct c as [[] [] [] [] [] [] [] []]; intros Hc;
    try discriminate Hc; reflexivity.
Qed.

Lemma like_any s : Sql.like "%" s = true.
Proof.
  induction s as [|c s IH]; [reflexivity|].
  rewrite like_percent, IH. apply orb_true_r.
Qed.

(** A pattern made of plain characters and a final [%] matches the
    strings that start with these characters. *)
Lemma like_prefix k s :
  Sql.has_meta k = false -> Sql.like (k +:+ "%") s = startswith k s.
Proof.
  revert s. induction k as [|c k IH]; intros s Hk.
  - apply like_any.
  - simpl in Hk. apply orb_false_iff in Hk as [Hc Hk].
    change (String c k +:+ "%") with (String c (k +:+ "%")).
    rewrite like_literal by exact Hc.
    destruct s as [|a s]; [reflexivity|]. cbn [startswith].
    rewrite IH by exact Hk. now rewrite Ascii.eqb_sym.
Qed.

(** Between two [%], plain characters are looked for anywhere in the
    string: the pattern is a substring test. *)
Lemma like_substring k s :
  Sql.has_meta k = false -> Sql.like ("%" +:+ k +:+ "%") s = contains k s.
Proof.
  intros Hk. change ("%" +:+ k +:+ "%") with (String "%" (k +:+ "%")).
  induction s as [|a s IH].
  - rewrite like_percent, like_prefix by exact Hk. reflexivity.
  - rewrite like_percent, like_prefix by exact Hk. cbn [contains].
    now rewrite IH.
Qed.

(** When the search text has no [%], [_] or backslash, the search filter
    is the case-insensitive substring test. *)
Lemma ilike_substring search text_ :
  Sql.has_meta search = false ->
  Sql.ilike text_ ("%" +:+ search +:+ "%") = contains (lower search) (lower text_).
Proof.
  intros Hs. unfold Sql.ilike. rewrite !lower_app.
  change (lower "%") with "%". apply like_substring.
  now rewrite has_meta_lower.
Qed.

End Patterns.

(** ** The query layer *)

Section Query.

Lemma insert_desc_Permutation r l : Permutation (insert_desc r l) (r :: l).
Proof.
  induction l as [|x l IH]; simpl; [reflexivity|].
  destruct (created_at x <=? created_at r)%Z; [reflexivity|].
  rewrite IH. apply perm_swap.
Qed.

Lemma order_by_Permutation rows : Permutation (order_by_created_at_desc rows) rows.
Proof.
  induction rows as [|r rows IH]; simpl; [reflexivity|].
  rewrite insert_desc_Permutation. now constructor.
Qed.

Lemma order_by_length rows : length (order_by_created_at_desc rows) = length rows.
Proof. apply Permutation_length, order_by_Permutation. Qed.

Lemma insert_desc_HdRel a r l :
  newer_first a r -> HdRel newer_first a l -> HdRel newer_first a (insert_desc r l).
Proof.
  intros Har Hal. destruct l as [|x l]; simpl; [now constructor|].
  destruct (created_at x <=? created_at r)%Z; constructor;
    [exact Har | now inversion Hal].
Qed.

Lemma insert_desc_Sorted r l :
  Sorted newer_first l -> Sorted newer_first (insert_desc r l).
Proof.
  induction l as [|x l IH]; intros Hs; simpl.
  - repeat constructor.
  - destruct (created_at x <=? created_at r)%Z eqn:Hx.
    + constructor; [exact Hs|]. constructor. unfold newer_first. lia.
    + apply Sorted_inv in Hs as [Hs Hhd]. constructor; [now apply IH|].
      apply insert_desc_HdRel; [unfold newer_first; lia | exact Hhd].
Qed.

Lemma order_by_Sorted rows : Sorted newer_first (order_by_created_at_desc rows).
Proof.
  induction rows as [|r rows IH]; simpl; [constructor|].
  now apply insert_desc_Sorted.
Qed.

Lemma Sorted_drop n (l : list Feedback) :
  Sorted newer_first l -> Sorted newer_first (drop n l).
Proof.
  revert l. induction n as [|n IH]; intros l Hs; [exact Hs|].
  destruct l as [|x l]; [constructor|]. apply IH. now apply Sorted_inv in Hs.
Qed.

Lemma Sorted_take n (l : list Feedback) :
  Sorted newer_first l -> Sorted newer_first (take n l).
Proof.
  revert l. induction n as [|n IH]; intros l Hs; [constructor|].
  destruct l as [|x l]; [constructor|].
  apply Sorted_inv in Hs as [Hs Hhd]. cbn [take firstn]. constructor; [now apply IH|].
  destruct l as [|y l]; [destruct n; constructor|].
  destruct n; constructor. now inversion Hhd.
Qed.

Lemma filter_and {A} (p q : A -> bool) l :
  List.filter p (List.filter q l) = List.filter (fun x => q x && p x) l.
Proof.
  induction l as [|x l IH]; simpl; [reflexivity|].
  destruct (q x); simpl; [destruct (p x)|]; now rewrite IH.
Qed.

Lemma filter_opt {A B} (o : option B) (f : B -> A -> bool) l :
  match o with
  | Some v => List.filter (f v) l
  | None => l
  end = List.filter (fun r => match o with Some v => f v r | None => true end) l.
Proof.
  destruct o; [reflexivity|].
  induction l as [|x l IH]; simpl; [reflexivity | now rewrite <- IH].
Qed.

(** The filters are applied conjunctively: what [get_feedback] keeps are
    the rows that pass every one of them, in the order of the table. *)
Lemma apply_filters_filter search source_ sentiment_ start_date end_date rows :
  apply_filters search source_ sentiment_ start_date end_date rows
  = List.filter (matchesb search source_ sentiment_ start_date end_date) rows.
Proof.
  unfold apply_filters. cbv zeta.
  rewrite (filter_opt end_date (fun d r => (created_at r <=? d)%Z)).
  rewrite (filter_opt start_date (fun d r => (d <=? created_at r)%Z)).
  rewrite (filter_opt (given sentiment_)
             (fun v r => match sentiment r with
                         | Some x => String.eqb x v
                         | None => false
                         end)).
  rewrite (filter_opt (given source_) (fun v r => String.eqb (source r) v)).
  rewrite (filter_opt (given search)
             (fun v r => Sql.ilike (text r) ("%" +:+ v +:+ "%"))).
  rewrite !filter_and. apply List.filter_ext. intros r.
  unfold matchesb, search_ok, source_ok, sentiment_matches, start_ok, end_ok.
  rewrite !andb_assoc. reflexivity.
Qed.

Lemma matchesb_spec search source_ sentiment_ start_date end_date r :
  matchesb search source_ sentiment_ start_date end_date r = true <->
  (forall v, given search = Some v -> Sql.ilike (text r) ("%" +:+ v +:+ "%") = true) /\
  (forall v, given source_ = Some v -> source r = v) /\
  (forall v, given sentiment_ = Some v -> sentiment r = Some v) /\
  (forall d, start_date = Some d -> (d <= created_at r)%Z) /\
  (forall d, end_date = Some d -> (created_at r <= d)%Z).
Proof.
  unfold matchesb, search_ok, source_ok, sentiment_matches, start_ok, end_ok.
  rewrite !andb_true_iff. split.
  - intros [[[[H1 H2] H3] H4] H5]. repeat split.
    + intros v Hv. now rewrite Hv in H1.
    + intros v Hv. rewrite Hv in H2. now apply String.eqb_eq.
    + intros v Hv. rewrite Hv in H3. destruct (sentiment r); [|discriminate].
      apply String.eqb_eq in H3. now subst.
    + intros d ->. now apply Z.leb_le.
    + intros d ->. now apply Z.leb_le.
  - intros (H1 & H2 & H3 & H4 & H5). repeat split.
    + destruct (given search); [now apply H1 | reflexivity].
    + destruct (given source_) as [v|]; [|reflexivity].
      apply String.eqb_eq. now apply H2.
    + destruct (given sentiment_) as [v|]; [|reflexivity].
      rewrite (H3 v eq_refl). apply String.eqb_refl.
    + destruct start_date as [d|]; [|reflexivity]. apply Z.leb_le. now apply H4.
    + destruct end_date as [d|]; [|reflexivity]. apply Z.leb_le. now apply H5.
Qed.

(** A page of [get_feedback]: the total is the number of rows that pass
    the filters, counted before the page is cut; the page is cut from
    these rows put most recent first. *)
Lemma get_feedback_page skip limit search source_ sentiment_ start_date end_date w :
  (0 <= skip)%Z -> (0 <= limit)%Z ->
  let matching :=
    List.filter (matchesb search source_ sentiment_ start_date end_date) (db w) in
  get_feedback skip limit search source_ sentiment_ start_date end_date w
  = (Ok (take (Z.to_nat limit)
           (drop (Z.to_nat skip) (order_by_created_at_desc matching)),
         length matching), w).
Proof.
  intros Hskip Hlimit matching. unfold get_feedback. cbv zeta.
  rewrite apply_filters_filter. fold matching.
  replace (skip <? 0)%Z with false by (symmetry; apply Z.ltb_ge; lia).
  replace (limit <? 0)%Z with false by (symmetry; apply Z.ltb_ge; lia).
  reflexivity.
Qed.

Variables DEFAULT_PAGE DEFAULT_PAGE_SIZE MAX_PAGE_SIZE : Z.
Variable fromisoformat : string -> option Z.

(** The listing route on a well-formed request: page [p] of size [s] among
    the [K] rows that pass the filters holds [min(s, max(0, K - (p-1)*s))]
    of them, the most recent first, and the total is [K] whatever the
    page.  The search filter is a pattern; it is the case-insensitive
    substring test when the search text has none of the characters [%],
    [_] and backslash. *)
Lemma get_feedback_route_page p s search source_ sentiment_ start_date end_date
    start_dt end_dt w :
  (1 <= p)%Z -> (1 <= s <= MAX_PAGE_SIZE)%Z ->
  date_of fromisoformat start_date = Some start_dt ->
  date_of fromisoformat end_date = Some end_dt ->
  let matching :=
    List.filter (matchesb search source_ sentiment_ start_dt end_dt) (db w) in
  let K := Z.of_nat (length matching) in
  exists response,
    get_feedback_route DEFAULT_PAGE DEFAULT_PAGE_SIZE MAX_PAGE_SIZE fromisoformat
      (Some p) (Some s) search source_ sentiment_ start_date end_date w
    = (Ok response, w) /\
    Z.of_nat (total response) = K /\
    items response
    = take (Z.to_nat s)
        (drop (Z.to_nat ((p - 1) * s)) (order_by_created_at_desc matching)) /\
    Z.of_nat (length (items response)) = Z.min s (Z.max 0 (K - (p - 1) * s)) /\
    Sorted newer_first (items response) /\
    (forall r, In r (items response) ->
       In r (db w) /\
       matchesb search source_ sentiment_ start_dt end_dt r = true) /\
    (forall v r,
       given search = Some v -> Sql.has_meta v = false ->
       search_ok search r = contains (lower v) (lower (text r))).
Proof.
  intros Hp Hs Hstart Hend matching K.
  unfold get_feedback_route, bind, query_int.
  replace (p <? 1)%Z with false by (symmetry; apply Z.ltb_ge; lia).
  replace (s <? 1)%Z with false by (symmetry; apply Z.ltb_ge; lia).
  replace (MAX_PAGE_SIZE <? s)%Z with false by (symmetry; apply Z.ltb_ge; lia).
  cbn [orb ret]. rewrite parse_date_cases, Hstart, parse_date_cases, Hend.
  unfold try_except, bind.
  rewrite get_feedback_page by nia. fold matching. cbn [ret].
  eexists. split; [reflexivity|]. cbn [total items].
  split; [reflexivity|]. split; [reflexivity|]. split; [|split; [|split]].
  - rewrite length_take, length_drop, order_by_length. subst K. nia.
  - apply Sorted_take, Sorted_drop, order_by_Sorted.
  - intros r Hr. apply list_elem_of_In in Hr.
    apply subseteq_take, subseteq_drop in Hr. apply list_elem_of_In in Hr.
    apply (Permutation_in _ (order_by_Permutation matching)) in Hr.
    apply filter_In in Hr. exact Hr.
  - intros v r Hv Hmeta. unfold search_ok. rewrite Hv.
    now apply ilike_substring.
Qed.

End Query.

(** C4, where the code departs from it.  The search text goes into the
    [ILIKE] pattern as it is, so its [%] and [_] are wildcards: a search
    for "50%" also returns the row "Checkout took 50 minutes", which does
    not contain the text "50%", and counts it in the total.  A substring
    match would return the one row with "50%" in it. *)
Theorem search_text_is_a_pattern :
  contains (lower "50%") (lower (text minutes_row)) = false /\
  contains (lower "50%") (lower (text discount_row)) = true /\
  get_feedback_route 1 20 100 iso0
    (Some 1%Z) (Some 20%Z) (Some "50%") None None None None world2
  = (Ok {| items := [discount_row; minutes_row]; total := 2;
           page := 1; page_size := 20 |}, world2).
Proof. repeat split. Qed.

(** The second page of size two of a table of three rows holds the oldest
    row, and the total is three. *)
Example second_page_of_three :
  exists response,
    get_feedback_route 1 20 100 iso0
      (Some 2%Z) (Some 2%Z) None None None None None world1 = (Ok response, world1) /\
    total response = 3 /\ map id (items response) = [1%Z].
Proof.
  destruct (get_feedback_route_page 1 20 100 iso0 2 2 None None None None None
              None None world1)
    as (response & Hrun & Htotal & Hitems & _); try lia; try reflexivity.
  exists response. split; [exact Hrun|]. split.
  - apply Nat2Z.inj. rewrite Htotal. reflexivity.
  - rewrite Hitems. reflexivity.
Qed.

(** ** More on strings: trimming and words *)

Section Trimming.

Lemma string_app_length (a b : string) :
  String.length (a +:+ b) = String.length a + String.length b.
Proof.
  induction a as [|x a IH]; [reflexivity|].
  change (String x a +:+ b) with (String x (a +:+ b)). simpl. now rewrite IH.
Qed.

Lemma lstrip_head s :
  lstrip s = "" \/ exists c r, lstrip s = String c r /\ isspace c = false.
Proof.
  induction s as [|c s IH]; [now left|]. simpl.
  destruct (isspace c) eqn:Hc; [exact IH|]. right. now exists c, s.
Qed.

Lemma rstrip_idem s : rstrip (rstrip s) = rstrip s.
Proof.
  induction s as [|c s IH]; [reflexivity|]. cbn [rstrip]. cbv zeta.
  destruct (isspace c && negb (truthy (rstrip s))) eqn:Hc; [reflexivity|].
  cbn [rstrip]. cbv zeta. rewrite IH, Hc. reflexivity.
Qed.

Lemma rstrip_last s p c :
  rstrip s = p +:+ String c "" -> isspace c = false.
Proof.
  revert p. induction s as [|a s IH]; intros p.
  - destruct p; discriminate.
  - cbn [rstrip]. cbv zeta.
    destruct (isspace a && negb (truthy (rstrip s))) eqn:Ha.
    + destruct p; discriminate.
    + destruct p as [|b p].
      * intros [= -> Hr]. rewrite Hr in Ha. cbn in Ha.
        now rewrite andb_true_r in Ha.
      * intros [= _ Hr]. now apply (IH p).
Qed.

(** A trimmed text starts with a character that is not whitespace. *)
Lemma strip_first s c r : strip s = String c r -> isspace c = false.
Proof.
  unfold strip. destruct (lstrip_head s) as [-> | (c' & r' & -> & Hc')].
  - discriminate.
  - cbn [rstrip]. cbv zeta. rewrite Hc'. cbn [andb]. now intros [= <- _].
Qed.

(** A trimmed text ends with a character that is not whitespace. *)
Lemma strip_last s p c : strip s = p +:+ String c "" -> isspace c = false.
Proof. unfold strip. apply rstrip_last. Qed.

(** Trimming a trimmed text changes nothing. *)
Lemma strip_idem s : strip (strip s) = strip s.
Proof.
  unfold strip.
  destruct (lstrip_head s) as [H | (c & r & H & Hc)]; rewrite H.
  - reflexivity.
  - assert (Hr : rstrip (String c r) = String c (rstrip r)).
    { cbn [rstrip]. cbv zeta. now rewrite Hc. }
    rewrite Hr. cbn [lstrip]. rewrite Hc.
    cbn [rstrip]. cbv zeta. rewrite Hc. cbn [andb]. now rewrite rstrip_idem.
Qed.

Lemma truthy_nonempty s : truthy s = true <-> s <> "".
Proof. destruct s; simpl; split; congruence. Qed.

(** A text that is not blank has a trimmed form that is not empty. *)
Lemma strip_nonempty s : all_space s = false -> strip s <> "".
Proof.
  intros Hs. apply truthy_nonempty. now rewrite truthy_strip, Hs.
Qed.

End Trimming.

(** ** Words of a response and the text sent to the model *)

Section Words.

Lemma isspace_lower_char c : isspace (lower_char c) = isspace c.
Proof. destruct c as [[] [] [] [] [] [] [] []]; reflexivity. Qed.

Lemma no_space_lower s : no_space (lower s) = no_space s.
Proof.
  induction s as [|c s IH]; [reflexivity|]. simpl.
  now rewrite isspace_lower_char, IH.
Qed.

Lemma word_end_lower s : word_end (lower s) = word_end s.
Proof. destruct s as [|c s]; [reflexivity|]. simpl. apply isspace_lower_char. Qed.

Lemma lstrip_spaces pre s : all_space pre = true -> lstrip (pre +:+ s) = lstrip s.
Proof.
  induction pre as [|c pre IH]; [reflexivity|]. simpl.
  intros [Hc Hpre]%andb_true_iff.
  change (String c pre +:+ s) with (String c (pre +:+ s)). cbn [lstrip].
  rewrite Hc. now apply IH.
Qed.

Lemma rstrip_word tok s : no_space tok = true -> rstrip (tok +:+ s) = tok +:+ rstrip s.
Proof.
  induction tok as [|c tok IH]; [reflexivity|]. simpl.
  intros [Hc Htok]%andb_true_iff. apply negb_true_iff in Hc.
  change (String c tok +:+ s) with (String c (tok +:+ s)). cbn [rstrip]. cbv zeta.
  rewrite Hc, IH by exact Htok. reflexivity.
Qed.

Lemma word_end_rstrip s : word_end s = true -> word_end (rstrip s) = true.
Proof.
  destruct s as [|c s]; [reflexivity|]. simpl. intros Hc. rewrite Hc.
  destruct (negb (truthy (rstrip s))); [reflexivity | exact Hc].
Qed.

(** Reading a word: its characters join the run being read. *)
Lemma split_from_word c tok s cur :
  no_space (String c tok) = true ->
  split_from cur (String c tok +:+ s)
  = split_from (Some (default "" cur +:+ String c tok)) s.
Proof.
  revert c cur. induction tok as [|d tok IH]; intros c cur Hw.
  - simpl in Hw. rewrite andb_true_r in Hw. apply negb_true_iff in Hw.
    change (String c "" +:+ s) with (String c s). cbn [split_from]. rewrite Hw.
    destruct cur; reflexivity.
  - cbn [no_space] in Hw. apply andb_true_iff in Hw as [Hc Hw].
    apply negb_true_iff in Hc.
    change (String c (String d tok) +:+ s) with (String c (String d tok +:+ s)).
    cbn [split_from]. rewrite Hc. rewrite IH by exact Hw.
    f_equal. f_equal. cbn [default].
    destruct cur as [t|]; cbn [default Datatypes.id].
    + rewrite string_app_assoc. reflexivity.
    + reflexivity.
Qed.

Lemma split_from_word_end t s :
  word_end s = true -> hd_error (split_from (Some t) s) = Some t.
Proof.
  destruct s as [|c s]; [reflexivity|]. simpl. intros ->. reflexivity.
Qed.

(** The first word of a response that starts, after whitespace, with a
    word [tok]: it is [tok], case folded, whatever follows the word. *)
Lemma first_word pre tok rest :
  all_space pre = true -> no_space tok = true -> tok <> "" ->
  word_end rest = true ->
  hd_error (split (lower (strip (pre +:+ tok +:+ rest)))) = Some (lower tok).
Proof.
  intros Hpre Htok Hne Hrest. unfold strip, split.
  rewrite lstrip_spaces by exact Hpre.
  destruct tok as [|c tok]; [contradiction|].
  assert (Hc : isspace c = false).
  { simpl in Htok. apply andb_true_iff in Htok as [Hc _].
    now apply negb_true_iff in Hc. }
  change (String c tok +:+ rest) with (String c (tok +:+ rest)) at 1.
  cbn [lstrip]. rewrite Hc.
  change (String c (tok +:+ rest)) with (String c tok +:+ rest).
  rewrite rstrip_word by exact Htok. rewrite lower_app.
  change (lower (String c tok)) with (String (lower_char c) (lower tok)).
  rewrite split_from_word.
  - apply split_from_word_end. rewrite word_end_lower.
    now apply word_end_rstrip.
  - change (String (lower_char c) (lower tok)) with (lower (String c tok)).
    now rewrite no_space_lower.
Qed.

(** [s[:n]] is a prefix of [s] of length [min n (len s)]. *)
Lemma slice_to_prefix n s :
  exists rest,
    s = slice_to n s +:+ rest /\
    String.length (slice_to n s) = Nat.min n (String.length s).
Proof.
  unfold slice_to. revert s. induction n as [|n IH]; intros s.
  - exists s. destruct s; split; reflexivity.
  - destruct s as [|c s]; [exists ""; split; reflexivity|].
    destruct (IH s) as (rest & Hs & Hlen). exists rest. cbn [substring]. split.
    + change (String c (substring 0 n s) +:+ rest)
        with (String c (substring 0 n s +:+ rest)).
      now rewrite <- Hs.
    + simpl. now rewrite Hlen.
Qed.

End Words.

(** ** More on the classifier and the summarizer *)

Section ModelCalls.

Variable generate_content : list string -> string -> result string.
Variable MAX_FEEDBACK_FOR_SUMMARY : nat.

(** X1. The label is read from the first word of the response alone: when
    the response is some whitespace, then a word that is a valid label in
    any case, then nothing or whitespace followed by anything,
    [analyze_sentiment] returns that word in lower case. *)
Theorem analyze_sentiment_reads_first_word text w pre tok rest :
  all_space text = false ->
  generate_content (ai_log w) (classifier_prompt text) = Ok (pre +:+ tok +:+ rest) ->
  all_space pre = true -> no_space tok = true -> word_end rest = true ->
  In (lower tok) VALID_SENTIMENTS ->
  fst (analyze_sentiment generate_content text w) = Ok (lower tok).
Proof.
  intros Htext Hcall Hpre Htok Hrest Hvalid.
  rewrite analyze_sentiment_cases, Htext, Hcall. cbn [fst]. f_equal.
  assert (Hne : tok <> "").
  { intros ->. simpl in Hvalid. intuition discriminate. }
  unfold parsed_label.
  pose proof (first_word pre tok rest Hpre Htok Hne Hrest) as Hhd.
  destruct (split _) as [|word others]; [discriminate|].
  injection Hhd as ->. apply mem_In in Hvalid. now rewrite Hvalid.
Qed.

(** X2. [analyze_sentiment] changes nothing of the world but the log of
    prompts: the table, the sequence of identifiers and the clock are as
    before.  It sends no prompt or one prompt, and that prompt holds a
    prefix of the text of at most 1000 characters. *)
Theorem analyze_sentiment_effects text w :
  let w' := snd (analyze_sentiment generate_content text w) in
  db w' = db w /\ next_id w' = next_id w /\ clock w' = clock w /\
  db_fault w' = db_fault w /\
  (ai_log w' = ai_log w \/
   exists snippet rest,
     text = snippet +:+ rest /\
     String.length snippet = Nat.min 1000 (String.length text) /\
     ai_log w' = ai_log w ++ [sentiment_prompt snippet]).
Proof.
  cbv zeta. rewrite analyze_sentiment_cases.
  destruct (all_space text); cbn [snd sent db next_id clock db_fault ai_log].
  - repeat split; try reflexivity. now left.
  - repeat split; try reflexivity. right. unfold classifier_prompt.
    destruct (1000 <? String.length text) eqn:Hlen.
    + destruct (slice_to_prefix 1000 text) as (rest & Hsplit & Hl).
      exists (slice_to 1000 text), rest. now repeat split.
    + apply Nat.ltb_ge in Hlen. exists text, "". repeat split.
      * now rewrite string_app_nil_r.
      * lia.
Qed.

(** X3. Each of the first [cap] texts given to [summarize_feedback] is in
    the prompt that goes to the model, under its position in the list
    counted from one. *)
Theorem summary_prompt_holds_numbered_texts feedback_texts context w i text_ :
  i < MAX_FEEDBACK_FOR_SUMMARY -> feedback_texts !! i = Some text_ ->
  exists prompt,
    ai_log (snd (summarize_feedback generate_content MAX_FEEDBACK_FOR_SUMMARY
                   feedback_texts context w)) = ai_log w ++ [prompt] /\
    contains (prompt_entry i text_) prompt = true.
Proof.
  intros Hi Hlookup. rewrite summarize_feedback_cases.
  destruct feedback_texts as [|t ts] eqn:Ht; [discriminate|]. rewrite <- Ht in *.
  eexists. split; [reflexivity|].
  apply summary_prompt_entry. rewrite lookup_take_lt by exact Hi. exact Hlookup.
Qed.

Lemma context_str_hints (context : gmap string string) :
  context_str context =
    (match get_truthy context "date_range" with
     | Some v => "Date range: " +:+ v +:+ nl
     | None => ""
     end) +:+
    match get_truthy context "source" with
    | Some v => "Source filter: " +:+ v +:+ nl
    | None => ""
    end.
Proof.
  unfold context_str. cbv zeta. destruct (dict_truthy context) eqn:Hd.
  - destruct (get_truthy context "date_range"), (get_truthy context "source");
      try reflexivity. now rewrite string_app_nil_r.
  - unfold dict_truthy in Hd. apply negb_false_iff, bool_decide_eq_true in Hd.
    subst context. reflexivity.
Qed.

(** X4. Of the hints it is given, the prompt of a summary reads the
    entries "date_range" and "source" and no other: two dictionaries that
    agree on these two give the same prompt. *)
Theorem summary_prompt_reads_two_hints (context context' : gmap string string)
    texts_to_summarize :
  context !! "date_range" = context' !! "date_range" ->
  context !! "source" = context' !! "source" ->
  summary_prompt context texts_to_summarize
  = summary_prompt context' texts_to_summarize.
Proof.
  intros Hdate Hsource. unfold summary_prompt.
  rewrite !context_str_hints. unfold get_truthy. now rewrite Hdate, Hsource.
Qed.

End ModelCalls.

Lemma analyze_sentiment_reads_first_word_witness :
  fst (analyze_sentiment
         (answering ("  Positive" +:+ nl +:+ "The customer sounds happy."))
         "Works fine" world0) = Ok "positive".
Proof.
  exact (analyze_sentiment_reads_first_word
           (answering ("  Positive" +:+ nl +:+ "The customer sounds happy."))
           "Works fine" world0 "  " "Positive" (nl +:+ "The customer sounds happy.")
           eq_refl eq_refl eq_refl eq_refl eq_refl (or_introl eq_refl)).
Defined.

Lemma summary_prompt_holds_numbered_texts_witness :
  exists prompt,
    ai_log (snd (summarize_feedback unavailable 2 ["slow"; "great"; "late"] ∅ world0))
    = [prompt] /\
    contains ("Feedback 2:" +:+ nl +:+ "great") prompt = true.
Proof.
  destruct (summary_prompt_holds_numbered_texts unavailable 2
              ["slow"; "great"; "late"] ∅ world0 1 "great")
    as (prompt & Hlog & Hentry); [lia | reflexivity |].
  exists prompt. split; [exact Hlog | exact Hentry].
Defined.

Lemma summary_prompt_reads_two_hints_witness :
  summary_prompt {[ "start_date" := "2024-01-01T00:00:00Z"; "search" := "crash" ]}
    ["slow"]
  = summary_prompt ∅ ["slow"].
Proof.
  exact (summary_prompt_reads_two_hints
           {[ "start_date" := "2024-01-01T00:00:00Z"; "search" := "crash" ]} ∅
           ["slow"] eq_refl eq_refl).
Defined.

(** ** More on the summarization route *)

Section SummarizeEffects.

Variable generate_content : list string -> string -> result string.
Variable MAX_FEEDBACK_FOR_SUMMARY : nat.
Variable fromisoformat : string -> option Z.

Lemma recent_matching_facts search source_ sentiment_ start_date end_date rows :
  let resolved :=
    recent_matching MAX_FEEDBACK_FOR_SUMMARY search source_ sentiment_
      start_date end_date rows in
  length resolved <= MAX_FEEDBACK_FOR_SUMMARY /\
  Sorted newer_first resolved /\
  forall r, In r resolved -> In r rows.
Proof.
  cbv zeta. unfold recent_matching. split; [|split].
  - rewrite length_take. lia.
  - apply Sorted_take, order_by_Sorted.
  - intros r Hr. apply list_elem_of_In, subseteq_take, list_elem_of_In in Hr.
    apply (Permutation_in _ (order_by_Permutation _)) in Hr.
    rewrite apply_filters_filter in Hr. now apply filter_In in Hr.
Qed.

(** X5. When the feedback to summarize is not resolved from identifiers,
    it is at most [cap] rows of the table, the most recent first, so the
    summarizer drops none of them: all their texts go into the prompt. *)
Theorem resolved_by_query_fits_the_cap request w feedback_items :
  feedback_ids request = None \/ feedback_ids request = Some [] ->
  fst (resolve_feedback MAX_FEEDBACK_FOR_SUMMARY fromisoformat request w)
  = Ok feedback_items ->
  length feedback_items <= MAX_FEEDBACK_FOR_SUMMARY /\
  take MAX_FEEDBACK_FOR_SUMMARY (map text feedback_items) = map text feedback_items /\
  Sorted newer_first feedback_items /\
  forall r, In r feedback_items -> In r (db w).
Proof.
  intros Hids. rewrite resolve_feedback_cases. cbn [fst].
  assert (Hfrom : forall search source_ sentiment_ start_date end_date,
    nonempty_or nothing_to_summarize
      (recent_matching MAX_FEEDBACK_FOR_SUMMARY search source_ sentiment_
         start_date end_date (db w)) = Ok feedback_items ->
    length feedback_items <= MAX_FEEDBACK_FOR_SUMMARY /\
    take MAX_FEEDBACK_FOR_SUMMARY (map text feedback_items) = map text feedback_items /\
    Sorted newer_first feedback_items /\
    forall r, In r feedback_items -> In r (db w)).
  { intros search source_ sentiment_ start_date end_date Hok.
    pose proof (recent_matching_facts search source_ sentiment_ start_date end_date
                  (db w)) as (Hlen & Hsorted & Hin).
    destruct (recent_matching _ _ _ _ _ _ _) as [|r rs]; [discriminate|].
    injection Hok as <-. split; [exact Hlen|]. split; [|now split].
    apply take_ge. rewrite length_map. exact Hlen. }
  destruct Hids as [-> | ->].
  all: destruct (filters request) as [filters_|]; [|apply Hfrom].
  all: destruct (dict_truthy filters_); [|apply Hfrom].
  all: destruct (date_of _ _); [|discriminate].
  all: destruct (date_of _ _); [apply Hfrom | discriminate].
Qed.

(** X6. The summarization route only reads the table.  It calls the model
    once when it has resolved feedback to summarize, be the outcome a
    summary or an [AIServiceError], and when it fails with an
    [HTTPException] it has called nothing: the world is as it was. *)
Theorem summarize_route_effects request w :
  let run := summarize_feedback_route generate_content MAX_FEEDBACK_FOR_SUMMARY
               fromisoformat request w in
  db (snd run) = db w /\ next_id (snd run) = next_id w /\
  clock (snd run) = clock w /\
  (forall status detail,
     fst run = Raise (HTTPException status detail) -> snd run = w) /\
  ((exists response, fst run = Ok response) \/
   (exists msg cause, fst run = Raise (AIServiceError msg cause)) ->
   exists prompt, ai_log (snd run) = ai_log w ++ [prompt]).
Proof.
  cbv zeta. rewrite summarize_feedback_route_cases.
  destruct (resolve_feedback _ _ request w) as [[feedback_items|e] w1] eqn:Hres;
    cbn [fst].
  - apply resolve_feedback_nonempty in Hres as [Hne _].
    rewrite summarize_feedback_cases.
    destruct (map text feedback_items) as [|t ts] eqn:Hmap.
    { destruct feedback_items; [contradiction | discriminate]. }
    cbv zeta. destruct (generate_content _ _) as [response|cause];
      cbn [fst snd sent db next_id clock ai_log].
    + repeat split; try reflexivity; [discriminate|]. intros _. now eexists.
    + repeat split; try reflexivity; [discriminate|]. intros _. now eexists.
  - cbn [snd]. repeat split; try reflexivity.
    intros [[response H] | (msg & cause & H)]; [discriminate|].
    injection H as ->. apply resolve_feedback_raises in Hres.
    destruct Hres as [H | [detail H]]; discriminate.
Qed.

End SummarizeEffects.

Lemma resolved_by_query_fits_the_cap_witness :
  let request :=
    {| feedback_ids := None; filters := Some {[ "source" := "survey" ]} |} in
  exists feedback_items,
    fst (resolve_feedback 1 iso0 request world1) = Ok feedback_items /\
    length feedback_items <= 1 /\
    take 1 (map text feedback_items) = map text feedback_items.
Proof.
  intros request.
  destruct (fst (resolve_feedback 1 iso0 request world1))
    as [feedback_items|e] eqn:Hres; [|vm_compute in Hres; discriminate Hres].
  destruct (resolved_by_query_fits_the_cap 1 iso0 request world1 feedback_items
              (or_introl eq_refl) Hres) as (Hlen & Htake & _).
  exists feedback_items. split; [reflexivity|]. split; [exact Hlen | exact Htake].
Defined.

(** ** More on creation *)

Section CreationEffects.

Variable generate_content : list string -> string -> result string.
Variable VALID_SOURCES : list string.
Variable VALID_SOURCES_repr : string.

(** What a call of [create_feedback] leaves behind: either it raises and
    the table is as it was, or a row is added at the end of the table. *)
Lemma create_feedback_outcome text_ source_ metadata w :
  let run := create_feedback generate_content VALID_SOURCES VALID_SOURCES_repr
               text_ source_ metadata w in
  clock (snd run) = clock w /\ db_fault (snd run) = db_fault w /\
  ((exists e, fst run = Raise e /\ db (snd run) = db w /\
              next_id (snd run) = next_id w /\
              (In source_ VALID_SOURCES -> all_space text_ = false ->
               db_fault w <> None)) \/
   (exists label,
      fst run = Ok (new_row text_ source_ label metadata w) /\
      In label VALID_SENTIMENTS /\
      db (snd run) = db w ++ [new_row text_ source_ label metadata w] /\
      next_id (snd run) = (next_id w + 1)%Z /\
      In source_ VALID_SOURCES /\ all_space text_ = false /\ db_fault w = None)).
Proof.
  cbv zeta. rewrite create_feedback_cases.
  destruct (mem source_ VALID_SOURCES) eqn:Hsrc; cbn [negb].
  2:{ split; [reflexivity|]. split; [reflexivity|]. left. eexists.
      repeat split; try reflexivity. intros Hin. apply mem_In in Hin. congruence. }
  destruct (all_space text_) eqn:Hblank.
  { split; [reflexivity|]. split; [reflexivity|]. left. eexists.
    repeat split; try reflexivity. discriminate. }
  destruct (analyze_sentiment_returns_label generate_content text_ w)
    as (label & w1 & Hrun & Hlabel).
  pose proof (analyze_sentiment_frame generate_content text_ w)
    as (Hdb & Hnext & Hclock & Hfault).
  rewrite Hrun in *. cbn [snd] in Hdb, Hnext, Hclock, Hfault.
  assert (Hvalid : mem label VALID_SENTIMENTS = true) by (apply mem_In; exact Hlabel).
  rewrite Hvalid. cbv zeta.
  assert (Hrow : new_row text_ source_ label metadata w1
                 = new_row text_ source_ label metadata w).
  { unfold new_row. now rewrite Hnext, Hclock. }
  rewrite Hrow, Hfault. destruct (db_fault w) as [e|] eqn:Hf;
    cbn [fst snd inserted db next_id clock db_fault].
  - split; [exact Hclock|]. split; [now rewrite Hfault|]. left. eexists.
    repeat split; try reflexivity; try assumption. discriminate.
  - split; [exact Hclock|]. split; [now rewrite Hfault|]. right. exists label.
    apply mem_In in Hsrc. rewrite Hdb, Hnext. now repeat split.
Qed.

(** X7. The route creates the feedback exactly when the source is valid,
    the text is not blank and the database takes the write, whatever the
    model does; in every other case it fails with the same 500. *)
Theorem creation_succeeds_whatever_the_model text_ source_ metadata w :
  let run := create_feedback_route generate_content VALID_SOURCES VALID_SOURCES_repr
               text_ source_ metadata w in
  ((exists row, fst run = Ok row) <->
   In source_ VALID_SOURCES /\ all_space text_ = false /\ db_fault w = None) /\
  ((exists row, fst run = Ok row) \/
   fst run = Raise (HTTPException 500 "Failed to create feedback")).
Proof.
  cbv zeta. unfold create_feedback_route, try_except.
  pose proof (create_feedback_outcome text_ source_ metadata w) as (_ & _ & Hout).
  cbv zeta in Hout.
  destruct (create_feedback _ _ _ text_ source_ metadata w) as [[row|e] w'] eqn:Hrun;
    cbn [fst snd] in *.
  - destruct Hout as [(e & He & _) | (label & _ & _ & _ & _ & Hs & Ht & Hf)];
      [discriminate|].
    split; [|left; now exists row]. split; [now intros _ | intros _; now exists row].
  - assert (He : (exists m, e = ValueError m) \/ exists m c, e = DatabaseError m c).
    { rewrite create_feedback_cases in Hrun.
      destruct (negb _); [injection Hrun as <- _; left; now eexists|].
      destruct (all_space text_); [injection Hrun as <- _; left; now eexists|].
      destruct (analyze_sentiment _ text_ w) as [[label|e'] w1].
      - cbv zeta in Hrun. destruct (db_fault w1);
          [injection Hrun as <- _; right; now eexists _, _ | discriminate].
      - injection Hrun as <- _. right. now eexists _, _. }
    assert (Hraise :
      fst (match e return M Feedback with
           | AIServiceError _ _ => raise e
           | _ => raise (HTTPException 500 "Failed to create feedback")
           end w') = Raise (HTTPException 500 "Failed to create feedback")).
    { destruct He as [[m ->] | (m & c & ->)]; reflexivity. }
    split; [|right; exact Hraise]. split.
    + intros [row Hrow]. rewrite Hraise in Hrow. discriminate.
    + intros (Hs & Ht & Hf).
      destruct Hout as [(e' & _ & _ & _ & Hbad) | (label & Hok & _)];
        [now contradiction (Hbad Hs Ht) | discriminate].
Qed.

Lemma find_snoc {A} (f : A -> bool) l x :
  List.find f (l ++ [x])
  = match List.find f l with
    | Some y => Some y
    | None => if f x then Some x else None
    end.
Proof.
  induction l as [|y l IH]; simpl; [reflexivity|].
  destruct (f y); [reflexivity | exact IH].
Qed.

Lemma find_absent {A} (f : A -> bool) l :
  (forall y, In y l -> f y = false) -> List.find f l = None.
Proof.
  intros H. induction l as [|y l IH]; [reflexivity|]. simpl.
  rewrite (H y) by now left. apply IH. intros z Hz. apply H. now right.
Qed.

Lemma filter_absent {A} (f : A -> bool) l :
  (forall y, In y l -> f y = false) -> List.filter f l = [].
Proof.
  intros H. induction l as [|y l IH]; [reflexivity|]. simpl.
  rewrite (H y) by now left. apply IH. intros z Hz. apply H. now right.
Qed.

(** X8. A feedback that has been created is found again: when no row of
    the table has the identifier the sequence gives next, the row that
    [create_feedback] returns is what a lookup by its identifier returns
    afterwards, through [get_feedback_by_id] and through
    [get_feedback_by_ids]. *)
Theorem created_feedback_is_found text_ source_ metadata w row w' :
  (forall r, In r (db w) -> id r <> next_id w) ->
  create_feedback generate_content VALID_SOURCES VALID_SOURCES_repr
    text_ source_ metadata w = (Ok row, w') ->
  get_feedback_by_id (id row) w' = (Ok row, w') /\
  get_feedback_by_ids [id row] w' = (Ok [row], w').
Proof.
  intros Hfresh Hrun.
  pose proof (create_feedback_outcome text_ source_ metadata w) as (_ & _ & Hout).
  cbv zeta in Hout. rewrite Hrun in Hout. cbn [fst snd] in Hout.
  destruct Hout as [(e & He & _) | (label & Hok & _ & Hdb & _)]; [discriminate|].
  injection Hok as ->.
  assert (Hid : id (new_row text_ source_ label metadata w) = next_id w)
    by reflexivity.
  assert (Hothers : forall r, In r (db w) ->
            (id r =? id (new_row text_ source_ label metadata w))%Z = false).
  { intros r Hr. rewrite Hid. apply Z.eqb_neq. now apply Hfresh. }
  split.
  - unfold get_feedback_by_id. rewrite Hdb, find_snoc.
    rewrite (find_absent _ _ Hothers), Z.eqb_refl. reflexivity.
  - unfold get_feedback_by_ids. rewrite Hdb, List.filter_app.
    rewrite filter_absent.
    + cbn [List.filter existsb app]. rewrite Z.eqb_refl. reflexivity.
    + intros r Hr. cbn [existsb]. rewrite (Hothers r Hr). reflexivity.
Qed.

End CreationEffects.

(** ** Re-classification and the invariants of the table *)

Section TableInvariants.

Variable generate_content : list string -> string -> result string.
Variable VALID_SOURCES : list string.
Variable VALID_SOURCES_repr : string.

(** What a call of [analyze_sentiment_for_feedback] leaves behind: the
    table as it was, or the table with a new label on the rows of the
    given identifier. *)
Lemma reclassify_outcome feedback_id w :
  let run := analyze_sentiment_for_feedback generate_content feedback_id w in
  next_id (snd run) = next_id w /\ clock (snd run) = clock w /\
  ((db (snd run) = db w /\ forall row, fst run <> Ok (Some row)) \/
   (exists feedback label,
      List.find (fun r => (id r =? feedback_id)%Z) (db w) = Some feedback /\
      fst (analyze_sentiment generate_content (text feedback) w) = Ok label /\
      In label VALID_SENTIMENTS /\ db_fault w = None /\
      fst run = Ok (Some (with_sentiment feedback label)) /\
      db (snd run)
      = map (fun r => if (id r =? feedback_id)%Z then with_sentiment r label else r)
          (db w))).
Proof.
  cbv zeta. unfold analyze_sentiment_for_feedback.
  destruct (List.find _ (db w)) as [feedback|] eqn:Hfind.
  2:{ repeat split. left. split; [reflexivity | discriminate]. }
  assert (Hid : id feedback = feedback_id).
  { apply find_some in Hfind as [_ Hid]. now apply Z.eqb_eq in Hid. }
  unfold bind.
  destruct (analyze_sentiment_returns_label generate_content (text feedback) w)
    as (label & w1 & Hrun & Hlabel).
  pose proof (analyze_sentiment_frame generate_content (text feedback) w)
    as (Hdb & Hnext & Hclock & Hfault).
  rewrite Hrun in *. cbn [snd] in Hdb, Hnext, Hclock, Hfault.
  unfold commit_sentiment. rewrite Hfault.
  destruct (db_fault w) as [e|]; cbn [fst snd ret db next_id clock].
  - split; [exact Hnext|]. split; [exact Hclock|]. left.
    split; [exact Hdb | discriminate].
  - split; [exact Hnext|]. split; [exact Hclock|]. right.
    exists feedback, label. rewrite Hdb.
    split; [reflexivity|]. split; [now rewrite Hrun|]. split; [exact Hlabel|].
    split; [reflexivity|]. split; [reflexivity|].
    apply map_ext. intros r. now rewrite Hid.
Qed.

Lemma reclassify_ids feedback_id w :
  let w' := snd (analyze_sentiment_for_feedback generate_content feedback_id w) in
  map id (db w') = map id (db w) /\ next_id w' = next_id w.
Proof.
  cbv zeta.
  pose proof (reclassify_outcome feedback_id w) as (Hnext & _ & Hdb).
  cbv zeta in Hdb. split; [|exact Hnext].
  destruct Hdb as [[-> _] | (feedback & label & _ & _ & _ & _ & _ & ->)];
    [reflexivity|].
  rewrite map_map. apply map_ext. intros r.
  destruct (id r =? feedback_id)%Z; reflexivity.
Qed.

(** X9. A missing identifier is no error for
    [analyze_sentiment_for_feedback]: when no row has the identifier, it
    returns nothing and leaves the world as it was, the model uncalled. *)
Theorem reclassification_of_a_missing_id_is_silent feedback_id w :
  (forall r, In r (db w) -> id r <> feedback_id) ->
  analyze_sentiment_for_feedback generate_content feedback_id w = (Ok None, w).
Proof.
  intros Hmissing. unfold analyze_sentiment_for_feedback.
  rewrite find_absent; [reflexivity|].
  intros r Hr. apply Z.eqb_neq. now apply Hmissing.
Qed.

Lemma filter_other_ids feedback_id label (rows : list Feedback) :
  List.filter (fun r => negb (id r =? feedback_id)%Z)
    (map (fun r => if (id r =? feedback_id)%Z then with_sentiment r label else r) rows)
  = List.filter (fun r => negb (id r =? feedback_id)%Z) rows.
Proof.
  induction rows as [|r rows IH]; [reflexivity|].
  cbn [map List.filter]. destruct (id r =? feedback_id)%Z eqn:Hid.
  - cbn [with_sentiment id]. rewrite Hid. exact IH.
  - rewrite Hid. cbn [negb]. now rewrite IH.
Qed.

(** X10. [analyze_sentiment_for_feedback] rewrites sentiments and nothing
    else: whatever the order of the table, it holds the same rows as
    before when their sentiment is left aside, each as often as before,
    and the rows of another identifier are the same as before, sentiment
    included; the sequence of identifiers and the clock are unchanged. *)
Theorem reclassification_only_rewrites_sentiment feedback_id w :
  let w' := snd (analyze_sentiment_for_feedback generate_content feedback_id w) in
  Permutation (map without_sentiment (db w')) (map without_sentiment (db w)) /\
  Permutation (List.filter (fun r => negb (id r =? feedback_id)%Z) (db w'))
              (List.filter (fun r => negb (id r =? feedback_id)%Z) (db w)) /\
  (forall r, id r <> feedback_id -> In r (db w') <-> In r (db w)) /\
  next_id w' = next_id w /\ clock w' = clock w.
Proof.
  cbv zeta.
  pose proof (reclassify_outcome feedback_id w) as (Hnext & Hclock & Hdb).
  cbv zeta in Hdb.
  assert (Hothers :
    List.filter (fun r => negb (id r =? feedback_id)%Z)
      (db (snd (analyze_sentiment_for_feedback generate_content feedback_id w)))
    = List.filter (fun r => negb (id r =? feedback_id)%Z) (db w)).
  { destruct Hdb as [[-> _] | (feedback & label & _ & _ & _ & _ & _ & ->)];
      [reflexivity | apply filter_other_ids]. }
  split; [|split; [now rewrite Hothers|split; [|split; [exact Hnext | exact Hclock]]]].
  - destruct Hdb as [[-> _] | (feedback & label & _ & _ & _ & _ & _ & ->)];
      [reflexivity|].
    rewrite map_map. erewrite map_ext; [reflexivity|].
    intros r. destruct (id r =? feedback_id)%Z; reflexivity.
  - intros r Hne. apply Z.eqb_neq in Hne.
    assert (Hkeep : forall rows,
              In r (List.filter (fun r => negb (id r =? feedback_id)%Z) rows)
              <-> In r rows).
    { intros rows. rewrite filter_In, Hne. cbn [negb]. tauto. }
    now rewrite <- (Hkeep (db w)), <- Hothers, Hkeep.
Qed.

Lemma ids_inj (rows : list Feedback) a b :
  NoDup (map id rows) -> In a rows -> In b rows -> id a = id b -> a = b.
Proof.
  induction rows as [|x rows IH]; [intros _ []|].
  cbn [map]. intros [Hx Hnd]%NoDup_cons [<- | Ha] [<- | Hb] Hid.
  - reflexivity.
  - exfalso. apply Hx. rewrite Hid. change (map id rows) with (id <$> rows).
    apply list_elem_of_fmap_2. now apply list_elem_of_In.
  - exfalso. apply Hx. rewrite <- Hid. change (map id rows) with (id <$> rows).
    apply list_elem_of_fmap_2. now apply list_elem_of_In.
  - now apply IH.
Qed.

(** X11. When identifiers are unique and the database takes the write,
    re-classifying a row of the table stores, on that row and on no
    other, the label that the classifier gives for the text of the row,
    and returns the row so labelled: afterwards the row so labelled is
    the one row of its identifier, and the rows of another identifier are
    those of before, with the sentiment they had. *)
Theorem reclassification_stores_the_label row w :
  NoDup (map id (db w)) -> In row (db w) -> db_fault w = None ->
  exists label,
    fst (analyze_sentiment generate_content (text row) w) = Ok label /\
    In label VALID_SENTIMENTS /\
    let run := analyze_sentiment_for_feedback generate_content (id row) w in
    fst run = Ok (Some (with_sentiment row label)) /\
    In (with_sentiment row label) (db (snd run)) /\
    (forall r, In r (db (snd run)) -> id r = id row -> r = with_sentiment row label) /\
    (forall r, id r <> id row -> In r (db (snd run)) <-> In r (db w)).
Proof.
  intros Hnd Hrow Hfault.
  pose proof (reclassify_outcome (id row) w) as (_ & _ & Hout). cbv zeta in Hout.
  destruct Hout as [[_ Hnot] | (feedback & label & Hfind & Hlabel & Hvalid & _ & Hok & Hdb)].
  - exfalso. unfold analyze_sentiment_for_feedback in Hnot.
    destruct (List.find _ (db w)) as [feedback|] eqn:Hfind.
    + unfold bind in Hnot.
      destruct (analyze_sentiment_returns_label generate_content (text feedback) w)
        as (label & w1 & Hrun & _).
      pose proof (analyze_sentiment_frame generate_content (text feedback) w)
        as (_ & _ & _ & Hf).
      rewrite Hrun in *. cbn [snd] in Hf. unfold commit_sentiment in Hnot.
      rewrite Hf, Hfault in Hnot. eapply Hnot. reflexivity.
    + apply (find_none _ _ Hfind) in Hrow. now rewrite Z.eqb_refl in Hrow.
  - assert (feedback = row) as ->.
    { apply find_some in Hfind as [Hin Hid]. apply Z.eqb_eq in Hid.
      now apply (ids_inj (db w)). }
    exists label. split; [exact Hlabel|]. split; [exact Hvalid|]. cbv zeta.
    split; [exact Hok|]. rewrite Hdb. split; [|split].
    + apply in_map_iff. exists row. now rewrite Z.eqb_refl.
    + intros r [r0 [<- Hr0]]%in_map_iff Hid.
      destruct (id r0 =? id row)%Z eqn:Heq.
      * apply Z.eqb_eq in Heq. now rewrite (ids_inj (db w) r0 row).
      * apply Z.eqb_neq in Heq. contradiction.
    + intros r Hne. apply Z.eqb_neq in Hne.
      assert (Hkeep : forall rows,
                In r (List.filter (fun r => negb (id r =? id row)%Z) rows)
                <-> In r rows).
      { intros rows. rewrite filter_In, Hne. cbn [negb]. tauto. }
      now rewrite <- (Hkeep (db w)), <- (filter_other_ids (id row) label), Hkeep.
Qed.

(** X12. Identifiers stay unique: when the identifiers of the table are
    all different and below the next one of the sequence, they still are
    after [create_feedback] and after [analyze_sentiment_for_feedback]. *)
Theorem writes_keep_ids_unique text_ source_ metadata feedback_id w :
  ids_ok w ->
  ids_ok (snd (create_feedback generate_content VALID_SOURCES VALID_SOURCES_repr
                 text_ source_ metadata w)) /\
  ids_ok (snd (analyze_sentiment_for_feedback generate_content feedback_id w)).
Proof.
  intros [Hnd Hbelow]. split.
  - pose proof (create_feedback_outcome generate_content VALID_SOURCES
                  VALID_SOURCES_repr text_ source_ metadata w) as (_ & _ & Hout).
    cbv zeta in Hout. unfold ids_ok.
    destruct Hout as [(e & _ & -> & -> & _) | (label & _ & _ & -> & -> & _)];
      [now split|].
    split.
    + rewrite map_app. change (map id ?l) with (id <$> l) in *.
      apply NoDup_app. split; [exact Hnd|]. split; [|apply NoDup_singleton].
      intros i Hi Hi'. apply list_elem_of_fmap in Hi as [r [-> Hr]].
      apply elem_of_cons in Hi' as [Heq | Hnil]; [|inversion Hnil].
      apply list_elem_of_In, Hbelow in Hr. cbn in Heq. lia.
    + intros r [Hr | [<- | []]]%in_app_or.
      * apply Hbelow in Hr. lia.
      * cbn. lia.
  - pose proof (reclassify_ids feedback_id w) as [Hids Hnext]. cbv zeta in Hids, Hnext.
    unfold ids_ok. rewrite Hnext. split; [now rewrite Hids|].
    intros r Hr. apply (in_map id) in Hr. rewrite Hids in Hr.
    apply in_map_iff in Hr as [r0 [<- Hr0]]. now apply Hbelow.
Qed.

End TableInvariants.

Section RowsWellFormed.

Variable generate_content : list string -> string -> result string.
Variable VALID_SOURCES : list string.
Variable VALID_SOURCES_repr : string.

(** X13. The rows stay well formed: when every row of the table has a
    valid source and a text that is not empty and is its own trimmed form,
    so has every row after [create_feedback] and after
    [analyze_sentiment_for_feedback]; such a text neither starts nor ends
    with a whitespace character. *)
Theorem writes_keep_rows_well_formed text_ source_ metadata feedback_id w :
  (forall r, In r (db w) -> row_ok VALID_SOURCES r) ->
  forall r,
    In r (db (snd (create_feedback generate_content VALID_SOURCES VALID_SOURCES_repr
                     text_ source_ metadata w))) \/
    In r (db (snd (analyze_sentiment_for_feedback generate_content feedback_id w))) ->
    row_ok VALID_SOURCES r /\
    (forall c t, text r = String c t -> isspace c = false) /\
    (forall p c, text r = p +:+ String c "" -> isspace c = false).
Proof.
  intros Hok r Hr.
  assert (Hrow : row_ok VALID_SOURCES r).
  { destruct Hr as [Hr | Hr].
    - pose proof (create_feedback_outcome generate_content VALID_SOURCES
                    VALID_SOURCES_repr text_ source_ metadata w) as (_ & _ & Hout).
      cbv zeta in Hout.
      destruct Hout as [(e & _ & Hdb & _) | (label & _ & _ & Hdb & _ & Hsrc & Hblank & _)];
        rewrite Hdb in Hr; [now apply Hok|].
      apply in_app_or in Hr as [Hr | [<- | []]]; [now apply Hok|].
      unfold row_ok, new_row. cbn [text source].
      split; [now apply strip_nonempty|]. split; [apply strip_idem | exact Hsrc].
    - pose proof (reclassify_outcome generate_content feedback_id w) as (_ & _ & Hout).
      cbv zeta in Hout.
      destruct Hout as [[Hdb _] | (feedback & label & _ & _ & _ & _ & _ & Hdb)];
        rewrite Hdb in Hr; [now apply Hok|].
      apply in_map_iff in Hr as [r0 [<- Hr0]]. apply Hok in Hr0.
      destruct (id r0 =? feedback_id)%Z; exact Hr0. }
  split; [exact Hrow|]. destruct Hrow as (_ & Htrim & _). split.
  - intros c t Ht. apply (strip_first (text r) c t). now rewrite Htrim.
  - intros p c Ht. apply (strip_last (text r) p c). now rewrite Htrim.
Qed.

End RowsWellFormed.

Lemma world1_rows_ok : forall r, In r (db world1) -> row_ok valid_sources r.
Proof.
  intros r [<-|[<-|[<-|[]]]]; unfold row_ok; cbn [text source];
    (split; [discriminate|]); (split; [reflexivity|]); simpl; auto.
Qed.

Lemma world1_ids_ok : ids_ok world1.
Proof.
  split.
  - cbn. repeat (apply NoDup_cons; split; [|]);
      try apply NoDup_nil_2; rewrite ?elem_of_cons, ?elem_of_nil; intuition discriminate.
  - intros r [<-|[<-|[<-|[]]]]; cbn; lia.
Qed.

Lemma created_feedback_is_found_witness :
  exists row w',
    create_feedback unavailable valid_sources valid_sources_repr
      " Much faster now " "app_store" None world1 = (Ok row, w') /\
    get_feedback_by_id 4 w' = (Ok row, w') /\ text row = "Much faster now".
Proof.
  destruct (create_feedback unavailable valid_sources valid_sources_repr
              " Much faster now " "app_store" None world1) as [[row|e] w'] eqn:Hrun;
    [|vm_compute in Hrun; discriminate Hrun].
  assert (Hfresh : forall r, In r (db world1) -> id r <> next_id world1).
  { intros r [<-|[<-|[<-|[]]]]; discriminate. }
  destruct (created_feedback_is_found unavailable valid_sources valid_sources_repr
              " Much faster now " "app_store" None world1 row w' Hfresh Hrun)
    as [Hfound _].
  exists row, w'. split; [reflexivity|].
  vm_compute in Hrun. injection Hrun as <- <-. split; [exact Hfound | reflexivity].
Defined.

Lemma reclassification_of_a_missing_id_is_silent_witness :
  analyze_sentiment_for_feedback unavailable 99 world1 = (Ok None, world1).
Proof.
  apply reclassification_of_a_missing_id_is_silent.
  intros r [<-|[<-|[<-|[]]]]; discriminate.
Defined.

Lemma reclassification_stores_the_label_witness :
  let row := {| id := 3; text := "Imported from the old system"; source := "survey";
                sentiment := None; created_at := 300; extra_data := None |} in
  fst (analyze_sentiment_for_feedback (answering "neutral") 3 world1)
  = Ok (Some (with_sentiment row "neutral")).
Proof.
  intros row.
  destruct (reclassification_stores_the_label (answering "neutral") row world1)
    as (label & Hlabel & _ & Hrun & _).
  - exact (proj1 world1_ids_ok).
  - right. right. left. reflexivity.
  - reflexivity.
  - cbv zeta in Hrun. vm_compute in Hlabel. injection Hlabel as <-. exact Hrun.
Defined.

Lemma writes_keep_ids_unique_witness :
  ids_ok (snd (create_feedback unavailable valid_sources valid_sources_repr
                 "Great" "survey" None world1)) /\
  ids_ok (snd (analyze_sentiment_for_feedback unavailable 2 world1)).
Proof.
  exact (writes_keep_ids_unique unavailable valid_sources valid_sources_repr
           "Great" "survey" None 2 world1 world1_ids_ok).
Defined.

Lemma writes_keep_rows_well_formed_witness :
  row_ok valid_sources
    {| id := 4; text := "Great"; source := "survey"; sentiment := Some "positive";
       created_at := 1000; extra_data := None |}.
Proof.
  refine (proj1 (writes_keep_rows_well_formed unavailable valid_sources
                   valid_sources_repr "  Great  " "survey" None 2 world1
                   world1_rows_ok _ (or_introl _))).
  vm_compute. do 3 right. left. reflexivity.
Defined.

(** X14. The sentiments stay within the data model: when every sentiment
    of the table is absent or one of the valid labels, it is so again
    after [create_feedback] and after [analyze_sentiment_for_feedback],
    whatever the arguments, the model and the fate of the write. *)
Theorem writes_keep_sentiments_valid
    (generate_content : list string -> string -> result string)
    (VALID_SOURCES : list string) (VALID_SOURCES_repr : string)
    text_ source_ metadata feedback_id w :
  store_ok (db w) ->
  store_ok (db (snd (create_feedback generate_content VALID_SOURCES
                       VALID_SOURCES_repr text_ source_ metadata w))) /\
  store_ok (db (snd (analyze_sentiment_for_feedback generate_content feedback_id w))).
Proof.
  intros Hok. split.
  - now apply create_feedback_store_ok.
  - now apply analyze_sentiment_for_feedback_store_ok.
Qed.

Lemma writes_keep_sentiments_valid_witness :
  store_ok (db world1) /\
  store_ok (db (snd (create_feedback unavailable valid_sources valid_sources_repr
                       "Great" "survey" None world1))) /\
  store_ok (db (snd (analyze_sentiment_for_feedback (answering "Neutral.") 3 world1))).
Proof.
  split; [exact world1_store_ok|].
  exact (writes_keep_sentiments_valid (answering "Neutral.") valid_sources
           valid_sources_repr "Great" "survey" None 3 world1 world1_store_ok).
Defined.

(** ** More on the statistics *)

Section StatisticsMore.

Variable generate_content : list string -> string -> result string.
Variable VALID_SOURCES : list string.
Variable VALID_SOURCES_repr : string.

(** The entry of a dictionary of counts under a key that one value of the
    column, and no other, is filed under. *)
Lemma group_dict_lookup {K} `{EqDecision K} (f : K -> string)
    (col : Feedback -> K) rows k :
  NoDup (f <$> (group_count col rows).*1) ->
  (forall k', k' ∈ (col <$> rows) -> f k' = f k -> k' = k) ->
  dict_of f (group_count col rows) !! f k
  = if count_of col k rows =? 0 then None else Some (count_of col k rows).
Proof.
  intros Hnd Honly. destruct (count_of col k rows =? 0) eqn:Hn.
  - apply Nat.eqb_eq in Hn. apply eq_None_not_Some. intros [v Hv].
    apply dict_of_lookup in Hv as [k' [Hin Hk']]; [|exact Hnd].
    apply group_count_elem in Hin as [Hin _].
    rewrite (Honly k' Hin Hk') in Hin. apply count_of_pos in Hin. lia.
  - apply Nat.eqb_neq in Hn. apply dict_of_lookup; [exact Hnd|].
    exists k. split; [|reflexivity]. apply group_count_elem.
    split; [|reflexivity]. apply count_of_pos. lia.
Qed.

Lemma source_keys_NoDup rows :
  NoDup ((fun s : string => s) <$> (group_count source rows).*1).
Proof.
  rewrite list_fmap_id, group_count_keys. apply NoDup_remove_dups.
Qed.

Lemma stats_sources_lookup w :
  exists stats,
    get_stats w = (Ok stats, w) /\
    forall s,
      source_counts stats !! s
      = if count_of source s (db w) =? 0 then None
        else Some (count_of source s (db w)).
Proof.
  eexists. split; [reflexivity|]. intros s. cbn [source_counts].
  apply (group_dict_lookup (fun s : string => s) source (db w) s);
    [apply source_keys_NoDup | now intros k' _ ->].
Qed.

(** X15. For every table, the counts by source that [get_stats] returns
    hold, for each source, the number of rows that have it, with no entry
    for a source without rows, and they sum to the total; the count of
    recent rows is the number of rows dated within seven days before the
    clock, and is at most the total. *)
Theorem stats_count_sources w :
  exists stats,
    get_stats w = (Ok stats, w) /\
    dict_sum (source_counts stats) = total_feedback stats /\
    (forall s,
       source_counts stats !! s
       = if count_of source s (db w) =? 0 then None
         else Some (count_of source s (db w))) /\
    recent_count stats = length (recent_rows (clock w) (db w)) /\
    recent_count stats <= total_feedback stats.
Proof.
  eexists. split; [reflexivity|].
  cbn [total_feedback source_counts recent_count]. split; [|split; [|split]].
  - rewrite dict_sum_dict_of by apply source_keys_NoDup. apply group_count_sum.
  - destruct (stats_sources_lookup w) as (stats & [= <-] & Hlookup).
    exact Hlookup.
  - reflexivity.
  - clear. induction (db w) as [|r rows IH]; [reflexivity|]. cbn [List.filter].
    destruct (_ <=? _)%Z; cbn [length]; lia.
Qed.

(** X16. On a table whose sentiments are absent or valid labels, the
    counts by sentiment hold, for each valid label, the number of rows
    that have it, with no entry for a label without rows. *)
Theorem stats_count_labels w label :
  store_ok (db w) -> In label VALID_SENTIMENTS ->
  exists stats,
    get_stats w = (Ok stats, w) /\
    sentiment_counts stats !! label
    = if count_of sentiment (Some label) (db w) =? 0 then None
      else Some (count_of sentiment (Some label) (db w)).
Proof.
  intros Hok Hlabel. eexists. split; [reflexivity|]. cbn [sentiment_counts].
  destruct (or_unknown_valid label Hlabel) as [Hkey Hne].
  rewrite <- Hkey at 1.
  apply group_dict_lookup; [now apply sentiment_keys_NoDup|].
  intros k' Hin Hk'. rewrite Hkey in Hk'.
  apply list_elem_of_fmap in Hin as [r [-> Hr]].
  apply list_elem_of_In, Hok in Hr. unfold sentiment_ok in Hr.
  destruct (sentiment r) as [s|].
  - apply or_unknown_valid in Hr as [Hs _]. congruence.
  - cbn in Hk'. congruence.
Qed.

Lemma count_of_snoc {K} `{EqDecision K} (col : Feedback -> K) k rows r :
  count_of col k (rows ++ [r])
  = count_of col k rows + (if bool_decide (col r = k) then 1 else 0).
Proof.
  unfold count_of. rewrite List.filter_app, length_app. cbn [List.filter].
  destruct (bool_decide (col r = k)); reflexivity.
Qed.

(** X17. Creating a feedback moves the statistics by one: after a call of
    [create_feedback] that returns a row, the total and the count of
    recent rows are one more than before, the count of the row's source is
    one more than before (one, when the source had no entry) and the
    counts of the other sources are as before. *)
Theorem creation_moves_the_statistics text_ source_ metadata w row w' :
  create_feedback generate_content VALID_SOURCES VALID_SOURCES_repr
    text_ source_ metadata w = (Ok row, w') ->
  exists before after,
    get_stats w = (Ok before, w) /\ get_stats w' = (Ok after, w') /\
    total_feedback after = total_feedback before + 1 /\
    recent_count after = recent_count before + 1 /\
    source_counts after !! source_
    = Some (default 0 (source_counts before !! source_) + 1) /\
    (forall s, s <> source_ -> source_counts after !! s = source_counts before !! s).
Proof.
  intros Hrun.
  pose proof (create_feedback_outcome generate_content VALID_SOURCES
                VALID_SOURCES_repr text_ source_ metadata w) as (Hclock & _ & Hout).
  cbv zeta in Hout, Hclock. rewrite Hrun in Hout, Hclock. cbn [fst snd] in Hout, Hclock.
  destruct Hout as [(e & He & _) | (label & Hok & _ & Hdb & _)]; [discriminate|].
  injection Hok as ->.
  destruct (stats_sources_lookup w) as (before & Hbefore & Hb).
  destruct (stats_sources_lookup w') as (after & Hafter & Ha).
  exists before, after. split; [exact Hbefore|]. split; [exact Hafter|].
  injection Hbefore as <-. injection Hafter as <-.
  cbn [total_feedback recent_count source_counts] in *.
  split; [rewrite Hdb, length_app; reflexivity|]. split; [|split].
  - rewrite Hdb, Hclock, List.filter_app, length_app.
    cbn [List.filter new_row created_at].
    replace (clock w - seven_days <=? clock w)%Z with true; [reflexivity|].
    symmetry. apply Z.leb_le. unfold seven_days. lia.
  - rewrite Ha, Hb, Hdb, count_of_snoc. cbn [new_row source].
    rewrite bool_decide_eq_true_2 by reflexivity.
    replace (count_of source source_ (db w) + 1 =? 0) with false
      by (symmetry; apply Nat.eqb_neq; lia).
    f_equal. destruct (count_of source source_ (db w)); reflexivity.
  - intros s Hs. rewrite Ha, Hb, Hdb, count_of_snoc. cbn [new_row source].
    rewrite bool_decide_eq_false_2 by congruence. now rewrite Nat.add_0_r.
Qed.

End StatisticsMore.

Lemma stats_count_labels_witness :
  exists stats,
    get_stats world1 = (Ok stats, world1) /\
    sentiment_counts stats !! "negative" = Some 1 /\
    sentiment_counts stats !! "neutral" = None.
Proof.
  destruct (stats_count_labels world1 "negative" world1_store_ok)
    as (stats & Hrun & Hnegative); [right; left; reflexivity|].
  destruct (stats_count_labels world1 "neutral" world1_store_ok)
    as (stats' & Hrun' & Hneutral); [right; right; left; reflexivity|].
  exists stats. split; [exact Hrun|]. split; [exact Hnegative|].
  rewrite Hrun in Hrun'. injection Hrun' as <-. exact Hneutral.
Defined.

Lemma creation_moves_the_statistics_witness :
  exists row w' before after,
    create_feedback unavailable valid_sources valid_sources_repr
      "Great" "app_store" None world1 = (Ok row, w') /\
    get_stats world1 = (Ok before, world1) /\ get_stats w' = (Ok after, w') /\
    total_feedback after = 4 /\ source_counts after !! "app_store" = Some 2.
Proof.
  destruct (create_feedback unavailable valid_sources valid_sources_repr
              "Great" "app_store" None world1) as [[row|e] w'] eqn:Hrun;
    [|vm_compute in Hrun; discriminate Hrun].
  destruct (creation_moves_the_statistics unavailable valid_sources
              valid_sources_repr "Great" "app_store" None world1 row w' Hrun)
    as (before & after & Hbefore & Hafter & Htotal & _ & Hsource & _).
  exists row, w', before, after. split; [reflexivity|].
  split; [exact Hbefore|]. split; [exact Hafter|].
  injection Hbefore as <-. split; [exact Htotal | exact Hsource].
Defined.

(** ** More on the query layer *)

Section QueryMore.

Variables DEFAULT_PAGE DEFAULT_PAGE_SIZE MAX_PAGE_SIZE : Z.
Variable fromisoformat : string -> option Z.

(** X18. On a request with a page [p] from one on, a size [s] from one to
    the maximum, an end of page [p * s] that the database takes as an
    offset, and well-formed dates, the listing route returns the page
    and the size it was asked for, as total the number [K] of rows that
    the filters keep, whatever the page, and [min(s, max(0, K - (p-1)*s))]
    items; it leaves the world as it was. *)
Theorem list_route_page_count p s search source_ sentiment_ start_date end_date
    start_dt end_dt w :
  (1 <= p)%Z -> (1 <= s <= MAX_PAGE_SIZE)%Z -> (p * s <= bigint_max)%Z ->
  date_of fromisoformat start_date = Some start_dt ->
  date_of fromisoformat end_date = Some end_dt ->
  let K := Z.of_nat (length (apply_filters search source_ sentiment_
                               start_dt end_dt (db w))) in
  exists response,
    get_feedback_route DEFAULT_PAGE DEFAULT_PAGE_SIZE MAX_PAGE_SIZE fromisoformat
      (Some p) (Some s) search source_ sentiment_ start_date end_date w
    = (Ok response, w) /\
    page response = p /\ page_size response = s /\
    Z.of_nat (total response) = K /\
    Z.of_nat (length (items response)) = Z.min s (Z.max 0 (K - (p - 1) * s)).
Proof.
  intros Hp Hs _ Hstart Hend K.
  unfold get_feedback_route, bind, query_int.
  replace (p <? 1)%Z with false by (symmetry; apply Z.ltb_ge; lia).
  replace (s <? 1)%Z with false by (symmetry; apply Z.ltb_ge; lia).
  replace (MAX_PAGE_SIZE <? s)%Z with false by (symmetry; apply Z.ltb_ge; lia).
  cbn [orb ret]. rewrite parse_date_cases, Hstart, parse_date_cases, Hend.
  unfold try_except, bind.
  rewrite get_feedback_page by nia. cbn [ret].
  eexists. split; [reflexivity|]. cbn [total items page page_size].
  subst K. rewrite apply_filters_filter.
  split; [reflexivity|]. split; [reflexivity|]. split; [reflexivity|].
  rewrite length_take, length_drop, order_by_length. nia.
Qed.

(** X19. What [get_feedback] returns is sorted and filtered: the items are
    rows of the table, the most recent first, and each of them passes
    every filter that is given (source and sentiment equal to the filter,
    date within the inclusive bounds, text matching the search pattern,
    which for a search text without [%], [_] and backslash means that the
    text contains it, case apart); the total is at least the number of
    items and at most the size of the table. *)
Theorem get_feedback_sorted_and_matching skip limit search source_ sentiment_
    start_date end_date w feedback total_ w' :
  get_feedback skip limit search source_ sentiment_ start_date end_date w
  = (Ok (feedback, total_), w') ->
  w' = w /\ Sorted newer_first feedback /\
  length feedback <= total_ <= length (db w) /\
  forall r, In r feedback ->
    In r (db w) /\
    (forall v, given source_ = Some v -> source r = v) /\
    (forall v, given sentiment_ = Some v -> sentiment r = Some v) /\
    (forall d, start_date = Some d -> (d <= created_at r)%Z) /\
    (forall d, end_date = Some d -> (created_at r <= d)%Z) /\
    (forall v, given search = Some v ->
       Sql.ilike (text r) ("%" +:+ v +:+ "%") = true /\
       (Sql.has_meta v = false -> contains (lower v) (lower (text r)) = true)).
Proof.
  unfold get_feedback. cbv zeta.
  destruct ((skip <? 0)%Z || (limit <? 0)%Z); [discriminate|].
  rewrite apply_filters_filter. intros [= <- <- <-].
  set (matching := List.filter _ (db w)).
  split; [reflexivity|]. split; [apply Sorted_take, Sorted_drop, order_by_Sorted|].
  split.
  - rewrite length_take, length_drop, order_by_length. split; [lia|].
    subst matching. clear. induction (db w) as [|r rows IH]; [reflexivity|].
    cbn [List.filter]. destruct (matchesb _ _ _ _ _ r); cbn [length]; lia.
  - intros r Hr. apply list_elem_of_In in Hr.
    apply subseteq_take, subseteq_drop in Hr. apply list_elem_of_In in Hr.
    apply (Permutation_in _ (order_by_Permutation matching)) in Hr.
    apply filter_In in Hr as [Hin Hm]. split; [exact Hin|].
    apply matchesb_spec in Hm as (Hsearch & Hsource & Hsent & Hs & He).
    repeat split; try assumption.
    + now apply Hsearch.
    + intros Hmeta. rewrite <- ilike_substring by exact Hmeta. now apply Hsearch.
Qed.

Lemma flat_map_pages {A} (l : list A) s n :
  flat_map (fun i => take s (drop (i * s) l)) (seq 0 n) = take (n * s) l.
Proof.
  induction n as [|n IH]; [reflexivity|].
  rewrite seq_S, flat_map_app, IH. cbn [flat_map]. rewrite app_nil_r.
  rewrite take_take_drop. f_equal. lia.
Qed.

Lemma dates_inj (rows : list Feedback) a b :
  NoDup (map created_at rows) -> In a rows -> In b rows ->
  created_at a = created_at b -> a = b.
Proof.
  induction rows as [|x rows IH]; [intros _ []|].
  cbn [map]. intros [Hx Hnd]%NoDup_cons [<- | Ha] [<- | Hb] Hdate.
  - reflexivity.
  - exfalso. apply Hx. rewrite Hdate.
    change (map created_at rows) with (created_at <$> rows).
    apply list_elem_of_fmap_2. now apply list_elem_of_In.
  - exfalso. apply Hx. rewrite <- Hdate.
    change (map created_at rows) with (created_at <$> rows).
    apply list_elem_of_fmap_2. now apply list_elem_of_In.
  - now apply IH.
Qed.

(** When no two rows have one date, there is one way to put them most
    recent first. *)
Lemma date_order_unique (l1 l2 : list Feedback) :
  NoDup (map created_at l1) -> Permutation l1 l2 ->
  Sorted newer_first l1 -> Sorted newer_first l2 -> l1 = l2.
Proof.
  assert (Htrans : Relations_1.Transitive newer_first).
  { intros a b c. unfold newer_first. lia. }
  revert l2. induction l1 as [|x l1 IH]; intros l2 Hnd Hperm Hs1 Hs2.
  - now apply Permutation_nil in Hperm.
  - destruct l2 as [|y l2].
    { apply Permutation_sym, Permutation_nil in Hperm. discriminate Hperm. }
    pose proof (Sorted_StronglySorted Htrans Hs1) as Hss1.
    pose proof (Sorted_StronglySorted Htrans Hs2) as Hss2.
    apply StronglySorted_inv in Hss1 as [_ Hx].
    apply StronglySorted_inv in Hss2 as [_ Hy].
    assert (Hyin : In y (x :: l1)).
    { apply (Permutation_in _ (Permutation_sym Hperm)). now left. }
    assert (Hxin : In x (y :: l2)).
    { apply (Permutation_in _ Hperm). now left. }
    assert (Hxy : x = y).
    { apply (dates_inj (x :: l1)); [exact Hnd | now left | exact Hyin |].
      apply Z.le_antisymm.
      - destruct Hxin as [-> | Hxin]; [lia|].
        exact (proj1 (List.Forall_forall _ _) Hy x Hxin).
      - destruct Hyin as [<- | Hyin]; [lia|].
        exact (proj1 (List.Forall_forall _ _) Hx y Hyin). }
    subst y. f_equal. apply IH.
    + cbn [map] in Hnd. now apply NoDup_cons in Hnd as [_ Hnd].
    + now apply Permutation_cons_inv in Hperm.
    + now inversion Hs1.
    + now inversion Hs2.
Qed.

(** X20. When no two of the rows that the filters keep have one date, the
    pages of a query cut these rows, put most recent first, into
    consecutive runs: whatever list [sorted] holds them by date, the most
    recent first (there is one such list), the first [n] pages of size
    [s], one after the other, with offsets that the database takes, are
    the first [n*s] rows of [sorted], and all of [sorted] when [n*s]
    reaches its length: every row that the filters keep is on one page,
    once. *)
Theorem pages_cover_the_matches s n search source_ sentiment_ start_date end_date
    w sorted :
  let matching := apply_filters search source_ sentiment_ start_date end_date (db w) in
  let pages :=
    flat_map (page_items s search source_ sentiment_ start_date end_date w) (seq 0 n) in
  NoDup (map created_at matching) ->
  (Z.of_nat (n * s) <= bigint_max)%Z ->
  Permutation sorted matching -> Sorted newer_first sorted ->
  pages = take (n * s) sorted /\
  (length matching <= n * s -> pages = sorted /\ Permutation pages matching).
Proof.
  cbv zeta. intros Hdates _ Hperm Hsorted.
  assert (Horder :
    order_by_created_at_desc
      (apply_filters search source_ sentiment_ start_date end_date (db w)) = sorted).
  { apply date_order_unique.
    - change (map created_at ?l) with (created_at <$> l) in *.
      now rewrite order_by_Permutation.
    - rewrite order_by_Permutation. now apply Permutation_sym.
    - apply order_by_Sorted.
    - exact Hsorted. }
  assert (Hpages :
    flat_map (page_items s search source_ sentiment_ start_date end_date w) (seq 0 n)
    = take (n * s) sorted).
  { rewrite <- Horder, <- flat_map_pages. apply flat_map_ext. intros i.
    unfold page_items. rewrite get_feedback_page by lia. cbn [fst].
    rewrite !Nat2Z.id, apply_filters_filter. reflexivity. }
  split; [exact Hpages|]. intros Hall. rewrite Hpages.
  rewrite take_ge by (rewrite (Permutation_length Hperm); exact Hall).
  split; [reflexivity | exact Hperm].
Qed.

Lemma lower_truthy s : truthy (lower s) = truthy s.
Proof. destruct s; reflexivity. Qed.

(** X21. The search is blind to case: two search texts that are equal once
    case folded give the same result. *)
Theorem search_ignores_case skip limit search search' source_ sentiment_
    start_date end_date w :
  lower search = lower search' ->
  get_feedback skip limit (Some search) source_ sentiment_ start_date end_date w
  = get_feedback skip limit (Some search') source_ sentiment_ start_date end_date w.
Proof.
  intros Hlower. unfold get_feedback.
  assert (Hfilters :
    apply_filters (Some search) source_ sentiment_ start_date end_date (db w)
    = apply_filters (Some search') source_ sentiment_ start_date end_date (db w)).
  { unfold apply_filters, given.
    assert (Ht : truthy search = truthy search').
    { now rewrite <- (lower_truthy search), Hlower, lower_truthy. }
    rewrite <- Ht. destruct (truthy search); [|reflexivity].
    replace (List.filter (fun r => Sql.ilike (text r) ("%" +:+ search' +:+ "%")) (db w))
      with (List.filter (fun r => Sql.ilike (text r) ("%" +:+ search +:+ "%")) (db w));
      [reflexivity|].
    apply List.filter_ext. intros r. unfold Sql.ilike.
    now rewrite !lower_app, Hlower. }
  cbv zeta. now rewrite Hfilters.
Qed.

(** X22. The listing route refuses a page below one and a size below one
    or above the maximum with a validation error, and a date that is not
    in ISO format with a 400; in both cases it has touched nothing. *)
Theorem list_route_rejects_bad_parameters p s search source_ sentiment_
    start_date end_date w :
  let run := get_feedback_route DEFAULT_PAGE DEFAULT_PAGE_SIZE MAX_PAGE_SIZE
               fromisoformat (Some p) (Some s) search source_ sentiment_
               start_date end_date w in
  ((p < 1)%Z \/ (s < 1)%Z \/ (MAX_PAGE_SIZE < s)%Z ->
   exists msg, run = (Raise (RequestValidationError msg), w)) /\
  ((1 <= p)%Z -> (1 <= s <= MAX_PAGE_SIZE)%Z ->
   date_of fromisoformat start_date = None \/
   date_of fromisoformat end_date = None ->
   exists detail, run = (Raise (HTTPException 400 detail), w)).
Proof.
  cbv zeta. unfold get_feedback_route, bind, query_int. split.
  - intros Hbad. destruct (p <? 1)%Z eqn:Hp; cbn [orb].
    + now eexists.
    + apply Z.ltb_ge in Hp. cbn [ret].
      destruct ((s <? 1)%Z || (MAX_PAGE_SIZE <? s)%Z) eqn:Hs; [now eexists|].
      apply orb_false_iff in Hs as [Hs1 Hs2]. apply Z.ltb_ge in Hs1, Hs2. lia.
  - intros Hp Hs Hdate.
    replace (p <? 1)%Z with false by (symmetry; apply Z.ltb_ge; lia).
    replace (s <? 1)%Z with false by (symmetry; apply Z.ltb_ge; lia).
    replace (MAX_PAGE_SIZE <? s)%Z with false by (symmetry; apply Z.ltb_ge; lia).
    cbn [orb ret]. rewrite parse_date_cases.
    destruct (date_of fromisoformat start_date) as [start_dt|]; [|now eexists].
    rewrite parse_date_cases.
    destruct (date_of fromisoformat end_date) as [end_dt|]; [|now eexists].
    destruct Hdate; discriminate.
Qed.

End QueryMore.

(** X23. [get_feedback_by_id] returns a row of the table that has the
    identifier asked for, and fails with [FeedbackNotFoundError], which
    is [NotFound], exactly when no row has it; it changes nothing. *)
Theorem get_feedback_by_id_found_or_not feedback_id w :
  (exists row,
     get_feedback_by_id feedback_id w = (Ok row, w) /\
     In row (db w) /\ id row = feedback_id) \/
  (exists msg,
     get_feedback_by_id feedback_id w = (Raise (FeedbackNotFoundError msg), w) /\
     kind_of (FeedbackNotFoundError msg) = NotFound /\
     forall r, In r (db w) -> id r <> feedback_id).
Proof.
  unfold get_feedback_by_id.
  destruct (List.find _ (db w)) as [row|] eqn:Hfind.
  - left. exists row. apply find_some in Hfind as [Hin Hid].
    apply Z.eqb_eq in Hid. now repeat split.
  - right. eexists. split; [reflexivity|]. split; [reflexivity|].
    intros r Hr. apply (find_none _ _ Hfind) in Hr. now apply Z.eqb_neq.
Qed.

Lemma list_route_page_count_witness :
  exists response,
    get_feedback_route 1 20 100 iso0
      (Some 2%Z) (Some 2%Z) None (Some "survey") None None None world1
    = (Ok response, world1) /\
    page response = 2%Z /\ page_size response = 2%Z /\
    total response = 2 /\ length (items response) = 0.
Proof.
  destruct (list_route_page_count 1 20 100 iso0 2 2 None (Some "survey") None
              None None None None world1)
    as (response & Hrun & Hpage & Hsize & Htotal & Hlength);
    try (unfold bigint_max; lia); try reflexivity.
  exists response. split; [exact Hrun|]. split; [exact Hpage|].
  split; [exact Hsize|]. split; apply Nat2Z.inj.
  - rewrite Htotal. reflexivity.
  - rewrite Hlength. reflexivity.
Defined.

Lemma get_feedback_sorted_and_matching_witness :
  exists feedback total_,
    get_feedback 0 10 (Some "THE") None None (Some 50%Z) None world1
    = (Ok (feedback, total_), world1) /\
    map id feedback = [3%Z; 2%Z] /\
    Sorted newer_first feedback /\ length feedback <= total_ <= 3.
Proof.
  destruct (get_feedback 0 10 (Some "THE") None None (Some 50%Z) None world1)
    as [[[feedback total_]|e] w'] eqn:Hrun; [|vm_compute in Hrun; discriminate Hrun].
  destruct (get_feedback_sorted_and_matching 0 10 (Some "THE") None None
              (Some 50%Z) None world1 feedback total_ w' Hrun)
    as (-> & Hsorted & Hlength & _).
  exists feedback, total_. split; [reflexivity|].
  split; [|split; [exact Hsorted | exact Hlength]].
  clear Hsorted Hlength. vm_compute in Hrun. injection Hrun as <- <-. reflexivity.
Defined.

Lemma search_ignores_case_witness :
  get_feedback 0 10 (Some "Dark MODE") None None None None world1
  = get_feedback 0 10 (Some "dark mode") None None None None world1.
Proof.
  apply search_ignores_case. reflexivity.
Defined.

Lemma pages_cover_the_matches_witness :
  map id (flat_map (page_items 2 None None None None None world1) (seq 0 2))
  = [3; 2; 1]%Z.
Proof.
  destruct (pages_cover_the_matches 2 2 None None None None None world1
              (rev (db world1))) as [_ Hall].
  - cbn. repeat (apply NoDup_cons; split; [|]);
      try apply NoDup_nil_2; rewrite ?elem_of_cons, ?elem_of_nil; intuition discriminate.
  - unfold bigint_max. cbn. lia.
  - change (Permutation (rev (db world1)) (db world1)).
    apply Permutation_sym, Permutation_rev.
  - repeat constructor; unfold newer_first; cbn; lia.
  - destruct Hall as [-> _]; [cbn; lia | reflexivity].
Defined.
